(** * generadorqr: record normalisation, QR payload and label document

    A shallow embedding of [src/main.py]: [DataProcessor.validate_excel],
    [QRGenerator.generate_qr_concatenated] and [PDFGenerator.generate_pdf].

    Conventions.
    - Python [str] objects are modelled as [string] (byte strings, UTF-8);
      only equality, concatenation and ASCII case mapping are used.
    - A Python [dict] is an insertion-ordered association list; lookups take
      the first binding, iteration follows the list.
    - The list [elements] that [generate_pdf] mutates is threaded explicitly
      and survives a raised exception, as a mutated Python list does.
    - The services of pandas, qrcode and reportlab that can fail are
      variables of a section; what they print to the console is not
      modelled. *)

From Stdlib Require Import String Ascii List ZArith Lia Bool Arith.
From Stdlib Require Import DecimalString.
Import ListNotations.
Open Scope string_scope.

(** ** Python values and [str()] *)

Module Py.

(** The objects a cell or a record value can be.  [VOpaque] stands for any
    other object (a float, a timestamp) and carries what [str()] returns
    for it. *)
Inductive value :=
| VStr (s : string)
| VInt (z : Z)
| VBool (b : bool)
| VNone
| VOpaque (repr : string).

(** A type with a [__str__]. *)
Class Str (A : Type) := str : A -> string.

#[export] Instance Str_string : Str string := fun s => s.

#[export] Instance Str_Z : Str Z := fun z => NilZero.string_of_int (Z.to_int z).

#[export] Instance Str_bool : Str bool :=
  fun b => if b then "True" else "False".

#[export] Instance Str_value : Str value :=
  fun v =>
    match v with
    | VStr s => str s
    | VInt z => str z
    | VBool b => str b
    | VNone => "None"
    | VOpaque repr => repr
    end.

(** [x in l] for a list of strings. *)
Definition str_in (x : string) (l : list string) : bool :=
  existsb (String.eqb x) l.

(** [sep.join(l)]. *)
Definition join (sep : string) (l : list string) : string :=
  String.concat sep l.

Definition upper_ascii (c : ascii) : ascii :=
  let n := nat_of_ascii c in
  if (97 <=? n)%nat && (n <=? 122)%nat then ascii_of_nat (n - 32) else c.

Definition lower_ascii (c : ascii) : ascii :=
  let n := nat_of_ascii c in
  if (65 <=? n)%nat && (n <=? 90)%nat then ascii_of_nat (n + 32) else c.

Fixpoint lower (s : string) : string :=
  match s with
  | EmptyString => EmptyString
  | String c s' => String (lower_ascii c) (lower s')
  end.

(** [s.capitalize()] on ASCII letters: first character upper-cased, the
    rest lower-cased; other bytes are left as they are. *)
Definition capitalize (s : string) : string :=
  match s with
  | EmptyString => EmptyString
  | String c s' => String (upper_ascii c) (lower s')
  end.

(** *** Dictionaries *)

Definition dict := list (string * value).

Fixpoint lookup (k : string) (d : dict) : option value :=
  match d with
  | [] => None
  | (k', v) :: d' => if String.eqb k k' then Some v else lookup k d'
  end.

(** [k in d] *)
Definition mem (k : string) (d : dict) : bool :=
  match lookup k d with Some _ => true | None => false end.

(** [d.get(k, default)] *)
Definition get (d : dict) (k : string) (default : value) : value :=
  match lookup k d with Some v => v | None => default end.

(** [d.items()] *)
Definition items (d : dict) : list (string * value) := d.

Definition keys (d : dict) : list string := map fst d.

(** Keys of a dictionary are pairwise distinct. *)
Definition wf_dict (d : dict) : Prop := NoDup (keys d).

(** *** Exceptions *)

Record exn := Exn { exn_class : string; exn_msg : string }.

#[export] Instance Str_exn : Str exn := exn_msg.

Inductive result (A : Type) :=
| Ok (a : A)
| Raise (e : exn).
Arguments Ok {A} a.
Arguments Raise {A} e.

Definition is_ok {A} (r : result A) : bool :=
  match r with Ok _ => true | Raise _ => false end.

Definition rbind {A B} (r : result A) (k : A -> result B) : result B :=
  match r with
  | Ok a => k a
  | Raise e => Raise e
  end.

End Py.

Import Py.

Declare Scope result_scope.
Delimit Scope result_scope with result.
Notation "x <- c ;; k" := (rbind c (fun x => k))
  (at level 61, c at next level, right associativity) : result_scope.
Notation "' pat <- c ;; k" := (rbind c (fun x => match x with pat => k end))
  (at level 61, pat pattern, c at next level, right associativity) : result_scope.

(** ** The code payload (lines 52-55 of [generate_qr_concatenated]) *)

Definition TAG : string := "AR-QR".

(** The text one selected field contributes:
    [str(record.get(field, ''))]. *)
Definition field_text (record : dict) (field : string) : string :=
  str (get record field (VStr "")).

(** The loop that builds [concatenated_data]. *)
Definition concatenated_data
  (record : dict) (selected_fields : list string) (separator : string) : string :=
  fold_left
    (fun acc field => acc ++ (field_text record field ++ separator))
    selected_fields
    (TAG ++ separator).

(** The segment of a field as the specification words it: the string form
    of the record's value, the empty string when the field is absent. *)
Definition segment_text (record : dict) (field : string) : string :=
  match lookup field record with
  | Some v => str v
  | None => ""
  end.

(** The payload as the specification words it: the tag, the separator,
    then every selected field's segment followed by the separator. *)
Definition payload_spec
  (record : dict) (selected_fields : list string) (separator : string) : string :=
  TAG ++ separator ++
  String.concat "" (map (fun f => segment_text record f ++ separator) selected_fields).

(** *** Separator-delimited segments of a payload *)

Fixpoint contains (c : ascii) (s : string) : bool :=
  match s with
  | EmptyString => false
  | String c' s' => Ascii.eqb c' c || contains c s'
  end.

(** The segments of [s], each closed by [sep] (an unclosed tail counts as
    a last segment). *)
Fixpoint segments (sep : ascii) (s : string) : list string :=
  match s with
  | EmptyString => []
  | String c s' =>
      if Ascii.eqb c sep then EmptyString :: segments sep s'
      else match segments sep s' with
           | [] => [String c EmptyString]
           | seg :: rest => String c seg :: rest
           end
  end.

Definition PIPE : ascii := "|"%char.

(** The record of the worked example. *)
Definition example_record : dict :=
  [("WOCO", VStr "1001"); ("ID", VStr "14X00.004");
   ("LOTE", VStr "241105-9246"); ("PESO Kg", VStr "50")].

Definition example_selection : list string := ["ID"; "LOTE"; "PESO Kg"].

(** ** The label document: flowables of the page-layout engine *)

Inductive style := TitleStyle | NormalStyle | QRNote.

Record paragraph := mkParagraph { para_text : string; para_style : style }.

Inductive error_correction :=
| ERROR_CORRECT_L | ERROR_CORRECT_M | ERROR_CORRECT_Q | ERROR_CORRECT_H.

(** The arguments of [qrcode.QRCode(...)]. *)
Record QRCode := mkQRCode
  { version : nat;
    error_correction_level : error_correction;
    box_size : nat;
    border : nat }.

(** A rendered symbol: the module matrix and how it is drawn. *)
Record qr_png := mkPng
  { modules : list (list bool);
    png_box_size : nat;
    png_border : nat }.

(** Lengths are in millimetres: [0.3*cm] is 3, [7*cm] is 70. *)
Inductive flowable :=
| FParagraph (p : paragraph)
| Spacer (height : nat)
| Image (png : qr_png) (width height : nat)
| Table (data : list (paragraph * paragraph)) (colWidths : nat * nat)
| PageBreak.

Definition is_page_break (f : flowable) : bool :=
  match f with PageBreak => true | _ => false end.

Definition is_table (f : flowable) : bool :=
  match f with Table _ _ => true | _ => false end.

(** The groups of elements that the page breaks of a story separate: a
    [PageBreak] closes the current group, what follows the last one is
    the last group.  Each group begins a sheet of its own. *)
Fixpoint split_pages (story : list flowable) : list (list flowable) :=
  match story with
  | [] => []
  | f :: rest =>
      if is_page_break f then [] :: split_pages rest
      else match split_pages rest with
           | [] => [[f]]
           | p :: ps => (f :: p) :: ps
           end
  end.

(** No element of [p] is a page break. *)
Definition no_break (p : list flowable) : Prop :=
  Forall (fun f => is_page_break f = false) p.

Definition page_breaks (story : list flowable) : nat :=
  length (filter is_page_break story).

(** *** Sheets

    The layout engine starts a sheet for each group of elements between
    page breaks and goes on to further sheets when a group does not fit
    on one.  Lengths below are in micrometres.  The page is A6, 148 mm
    high, with margins of 2 mm above and below: at most 144 mm of a sheet
    take content. *)







(** Pages laid one after the other with a break between two of them. *)
Fixpoint join_pages (pages : list (list flowable)) : list flowable :=
  match pages with
  | [] => []
  | p :: rest =>
      match rest with
      | [] => p
      | _ :: _ => (p ++ PageBreak :: join_pages rest)%list
      end
  end.

(** *** Statements that append to the shared list [elements]

    A statement takes the current [elements] and gives back the list as it
    is afterwards together with its outcome.  When it raises, what was
    appended before stays. *)

Definition stmt (A : Type) : Type := list flowable -> list flowable * result A.

Definition ret {A} (a : A) : stmt A := fun els => (els, Ok a).

Definition bind {A B} (m : stmt A) (k : A -> stmt B) : stmt B :=
  fun els =>
    match m els with
    | (els', Ok a) => k a els'
    | (els', Raise e) => (els', Raise e)
    end.

(** [elements.append(f)] *)
Definition append (f : flowable) : stmt unit := fun els => ((els ++ [f])%list, Ok tt).

(** An expression that may raise and does not touch [elements]. *)
Definition lift {A} (r : result A) : stmt A := fun els => (els, r).

Definition when (b : bool) (m : stmt unit) : stmt unit :=
  if b then m else ret tt.

Declare Scope stmt_scope.
Delimit Scope stmt_scope with stmt.
Notation "x <- c ;; k" := (bind c (fun x => k))
  (at level 61, c at next level, right associativity) : stmt_scope.
Notation "' pat <- c ;; k" := (bind c (fun x => match x with pat => k end))
  (at level 61, pat pattern, c at next level, right associativity) : stmt_scope.
Notation "c ;; k" := (bind c (fun _ => k))
  (at level 61, right associativity) : stmt_scope.

(** Run from any list, a statement leaves it in place and puts after it
    what it would have put in the empty list, with the same outcome. *)
Definition appends {A} (m : stmt A) : Prop :=
  forall els, m els = ((els ++ fst (m []))%list, snd (m [])).

(** A loop over [l] that carries [a] and stops at the first exception. *)
Fixpoint foldM {A B} (f : A -> B -> result A) (l : list B) (a : A) : result A :=
  match l with
  | [] => Ok a
  | x :: l' => rbind (f a x) (foldM f l')
  end.

(** [enumerate(l)] *)
Definition enumerate {A} (l : list A) : list (nat * A) :=
  combine (seq 0 (length l)) l.

(** [d[k]] *)
Definition getitem (d : dict) (k : string) : result value :=
  match lookup k d with
  | Some v => Ok v
  | None => Raise (Exn "KeyError" ("'" ++ k ++ "'"))
  end.

(** ** Data frames *)

(** Columns in header order, each with its cells in row order. *)
Record DataFrame := mkDataFrame
  { index_len : nat;
    data : list (string * list value) }.

Definition columns (df : DataFrame) : list string := map fst (data df).

(** [df.empty]: no rows or no columns. *)
Definition empty (df : DataFrame) : bool :=
  (index_len df =? 0)%nat || (length (data df) =? 0)%nat.

Fixpoint find_column (col : string) (cs : list (string * list value))
  : option (list value) :=
  match cs with
  | [] => None
  | (c, s) :: cs' => if String.eqb col c then Some s else find_column col cs'
  end.

(** [df[col]] *)
Definition df_getitem (df : DataFrame) (col : string) : result (list value) :=
  match find_column col (data df) with
  | Some s => Ok s
  | None => Raise (Exn "KeyError" ("'" ++ col ++ "'"))
  end.

(** [df[col] = series]: the column named [col] is replaced where it
    stands; a new name is added last. *)
Definition df_setitem (df : DataFrame) (col : string) (series : list value)
  : DataFrame :=
  if str_in col (columns df)
  then mkDataFrame (index_len df)
         (map (fun cs => if String.eqb col (fst cs) then (fst cs, series) else cs)
              (data df))
  else mkDataFrame (index_len df) (data df ++ [(col, series)])%list.

(** [df.to_dict('records')] *)
Definition to_dict_records (df : DataFrame) : list dict :=
  map (fun i => map (fun cs => (fst cs, nth i (snd cs) VNone)) (data df))
      (seq 0 (index_len df)).

(** Column names are distinct and every column has one cell per row. *)
Definition wf_df (df : DataFrame) : Prop :=
  NoDup (columns df) /\
  Forall (fun cs => length (snd cs) = index_len df) (data df).

Definition required_columns : list string := ["WOCO"].

(** A text of ASCII characters only; on such texts [capitalize] is
    Python's [str.capitalize]. *)
Definition is_ascii (s : string) : bool :=
  forallb (fun c => (nat_of_ascii c <? 128)%nat) (list_ascii_of_string s).

(** [if l:] for a list *)
Definition nonempty {A} (l : list A) : bool :=
  match l with [] => false | _ :: _ => true end.

(** ** Stand-ins for the external services

    Concrete services used to run the pipeline on examples.

    The encoder decides whether a payload fits as the qrcode library
    does: the payload is cut in numeric, alphanumeric and byte chunks
    (runs of at least four characters of a class make a chunk of that
    class), each chunk costs its mode, its length field and its data bits,
    and the sum is held against the data bits of the largest symbol at the
    error-correction level.  The matrix it draws is one row of bits per
    character. *)

Inductive qr_mode := MODE_NUMBER | MODE_ALPHA_NUM | MODE_8BIT_BYTE.

Definition is_digit (c : ascii) : bool :=
  let n := nat_of_ascii c in (48 <=? n)%nat && (n <=? 57)%nat.

(** The characters of [0-9A-Z $%*+-./:]. *)
Definition is_alpha_num (c : ascii) : bool :=
  let n := nat_of_ascii c in
  is_digit c || ((65 <=? n)%nat && (n <=? 90)%nat)
  || existsb (Ascii.eqb c) (list_ascii_of_string " $%*+-./:").

(** Maximal runs of characters that are, or are not, of the class. *)
Fixpoint class_runs (p : ascii -> bool) (l : list ascii) : list (bool * list ascii) :=
  match l with
  | [] => []
  | c :: l' =>
      match class_runs p l' with
      | (b, run) :: rest =>
          if Bool.eqb b (p c) then (b, c :: run) :: rest
          else (p c, [c]) :: (b, run) :: rest
      | [] => [(p c, [c])]
      end
  end.

(** Runs of the class shorter than four characters join what is around
    them. *)
Fixpoint long_runs (runs : list (bool * list ascii)) : list (bool * list ascii) :=
  match runs with
  | [] => []
  | (b, run) :: rest =>
      let keep := b && (4 <=? length run)%nat in
      match long_runs rest with
      | (false, run') :: rest' =>
          if keep then (true, run) :: (false, run') :: rest'
          else (false, (run ++ run')%list) :: rest'
      | tail => (keep, run) :: tail
      end
  end.

Definition optimal_split (p : ascii -> bool) (l : list ascii) : list (bool * list ascii) :=
  long_runs (class_runs p l).

Definition optimal_data_chunks (payload : string) : list (qr_mode * nat) :=
  let data := list_ascii_of_string payload in
  if (length data <=? 4)%nat then
    match data with
    | [] => []
    | _ :: _ =>
        [(if forallb is_digit data then MODE_NUMBER
          else if forallb is_alpha_num data then MODE_ALPHA_NUM
          else MODE_8BIT_BYTE,
          length data)]
    end
  else
    flat_map
      (fun chunk : bool * list ascii =>
         if fst chunk then [(MODE_NUMBER, length (snd chunk))]
         else map (fun sub : bool * list ascii =>
                     (if fst sub then MODE_ALPHA_NUM else MODE_8BIT_BYTE,
                      length (snd sub)))
                  (optimal_split is_alpha_num (snd chunk)))
      (optimal_split is_digit data).

(** The bits of one chunk in a symbol of version 27 or more: four bits
    of mode, the length field, and the data. *)
Definition chunk_bits (chunk : qr_mode * nat) : Z :=
  let n := Z.of_nat (snd chunk) in
  match fst chunk with
  | MODE_NUMBER =>
      (4 + 14 + 10 * (n / 3)
       + (if n mod 3 =? 1 then 4 else if n mod 3 =? 2 then 7 else 0))%Z
  | MODE_ALPHA_NUM => (4 + 13 + 11 * (n / 2) + 6 * (n mod 2))%Z
  | MODE_8BIT_BYTE => (4 + 16 + 8 * n)%Z
  end.

Definition needed_bits (payload : string) : Z :=
  fold_right Z.add 0%Z (map chunk_bits (optimal_data_chunks payload)).

(** The data bits of a symbol of version 40. *)
Definition bit_limit (level : error_correction) : Z :=
  match level with
  | ERROR_CORRECT_L => 23648%Z
  | ERROR_CORRECT_M => 18672%Z
  | ERROR_CORRECT_Q => 13328%Z
  | ERROR_CORRECT_H => 10208%Z
  end.

Definition standin_fits (qr : QRCode) (payload : string) : bool :=
  (needed_bits payload <=? bit_limit (error_correction_level qr))%Z.

Definition InvalidVersion : exn :=
  Exn "ValueError" "Invalid version (was 41, expected 1 to 40)".

Definition bits_of_ascii (c : ascii) : list bool :=
  let '(Ascii b0 b1 b2 b3 b4 b5 b6 b7) := c in [b0; b1; b2; b3; b4; b5; b6; b7].

Definition standin_make (qr : QRCode) (payload : string) : result (list (list bool)) :=
  if standin_fits qr payload
  then Ok (map bits_of_ascii (list_ascii_of_string payload))
  else Raise InvalidVersion.

Definition standin_markup (text : string) : option exn := None.

Definition standin_build (story : list flowable) : result (list flowable) := Ok story.

Definition standin_read (df : DataFrame) : result DataFrame := Ok df.

(** A missing cell: the float [nan], or [None] in a column of objects. *)
Definition is_missing (v : value) : bool :=
  match v with
  | VNone => true
  | VOpaque repr => String.eqb repr "nan"
  | _ => false
  end.

Definition NaN : value := VOpaque "nan".

(** [series.astype(str)] on a column of texts, integers, booleans and
    missing cells, as pandas 3 does it: a missing cell stays the float
    [nan], every other cell becomes its [str()]. *)
Definition standin_astype (series : list value) : list value :=
  map (fun v => if is_missing v then NaN else VStr (str v)) series.

Fixpoint repeat_string (n : nat) (s : string) : string :=
  match n with
  | O => EmptyString
  | S n' => s ++ repeat_string n' s
  end.

(** *** Example data *)

(** The record of the ordering example. *)
Definition abcd_record : dict :=
  [("A", VStr "1"); ("B", VStr "2"); ("C", VStr "3"); ("D", VStr "4")].

Definition second_record : dict :=
  [("WOCO", VStr "1002"); ("ID", VStr "14X00.005");
   ("LOTE", VStr "241105-9247"); ("PESO Kg", VStr "25")].

(** The example record with another order number and one more field. *)
Definition relabelled_record : dict :=
  [("PEDIDO", VStr "S345546"); ("WOCO", VStr "2002"); ("ID", VStr "14X00.004");
   ("LOTE", VStr "241105-9246"); ("PESO Kg", VStr "50")].

(** A record whose identifier is 8000 digits long. *)
Definition oversized_record : dict :=
  [("nombre", VStr "Tambor"); ("ID", VStr (repeat_string (80 * 100) "9"))].

Definition name_only_record : dict := [("nombre", VStr "Caja")].


Definition example_frame : DataFrame :=
  mkDataFrame 2
    [("WOCO", [VInt 1001; VInt 1002]);
     ("ID", [VStr "14X00.004"; VOpaque "14.5"]);
     ("OK", [VBool true; VNone])].

(** A sheet whose second row has no [LOTE]. *)
Definition gappy_frame : DataFrame :=
  mkDataFrame 2
    [("WOCO", [VInt 1001; VInt 1002]);
     ("LOTE", [VStr "241105-9246"; NaN])].

Definition headers_only_frame : DataFrame :=
  mkDataFrame 0 [("WOCO", []); ("ID", [])].

Definition unmarked_frame : DataFrame :=
  mkDataFrame 1 [("ID", [VStr "14X00.004"])].

(** A layout engine that cannot place the story. *)
Definition failing_build (story : list flowable) : result (list flowable) :=
  Raise (Exn "LayoutError" "Flowable too large on page 1").

(** A layout engine that refuses a text with a tag left open: a [<]
    with no [>] after it. *)
Fixpoint open_tag (text : string) (inside : bool) : bool :=
  match text with
  | EmptyString => inside
  | String c text' =>
      if Ascii.eqb c "<"%char then open_tag text' true
      else if Ascii.eqb c ">"%char then open_tag text' false
      else open_tag text' inside
  end.

Definition unclosed_markup (text : string) : option exn :=
  if open_tag text false then Some (Exn "ValueError" ("Parse error: " ++ text))
  else None.

(** A record whose name has a tag left open. *)
Definition odd_name_record : dict :=
  [("nombre", VStr "Caja <b"); ("ID", VStr "7")].

(** ** The pipeline *)

Section Pipeline.

(** [qr.add_data(payload); qr.make(fit=True)]: the module matrix, or the
    exception raised when the payload does not fit. *)
Variable qr_make : QRCode -> string -> result (list (list bool)).

(** What [Paragraph(text, style)] raises on [text], if anything. *)
Variable markup_error : string -> option exn.

(** The artifact [doc.build(elements)] writes. *)
Variable artifact : Type.
Variable doc_build : list flowable -> result artifact.

(** [pd.read_excel(file)] *)
Variable file : Type.
Variable read_excel : file -> result DataFrame.

(** [series.astype(str)]: the data-frame library converts a column as a
    whole and chooses the text of each cell by the column's type. *)
Variable astype_str : list value -> list value.

Open Scope result_scope.

(** *** [DataProcessor.validate_excel] *)

(** A column after [df[col] = df[col].astype(str)]. *)
Definition coerce_column (cs : string * list value) : string * list value :=
  (fst cs, astype_str (snd cs)).

Definition convert_columns (df : DataFrame) : result DataFrame :=
  foldM (fun df col =>
           series <- df_getitem df col ;;
           Ok (df_setitem df col (astype_str series)))
        (columns df) df.

Definition validate_excel (f : file) : bool * string * option DataFrame :=
  let body :=
    df <- read_excel f ;;
    if empty df then
      Ok (false, "El archivo Excel no contiene datos", None)
    else
      let missing_columns :=
        filter (fun col => negb (str_in col (columns df))) required_columns in
      if nonempty missing_columns then
        Ok (false,
            "Faltan las siguientes columnas: " ++ join ", " missing_columns,
            None)
      else
        df <- convert_columns df ;;
        Ok (true, "Archivo validado correctamente", Some df)
  in
  match body with
  | Ok r => r
  | Raise e => (false, "Error al procesar el archivo: " ++ str e, None)
  end.

(** *** [QRGenerator.generate_qr_concatenated] *)

Definition generate_qr_concatenated
  (record : dict) (selected_fields : list string)
  (separator : string) (box_size : nat) : result (flowable * string) :=
  let concatenated_data := concatenated_data record selected_fields separator in
  let qr := mkQRCode 1 ERROR_CORRECT_L box_size 4 in
  matrix <- qr_make qr concatenated_data ;;
  let img := mkPng matrix box_size 4 in
  Ok (Image img 70 70, concatenated_data).

(** *** [PDFGenerator.generate_pdf] *)

Definition Paragraph (text : string) (st : style) : result paragraph :=
  match markup_error text with
  | None => Ok (mkParagraph text st)
  | Some e => Raise e
  end.

(** One row of the attribute table: the label and the value. *)
Definition table_row (key : string) (v : value) : result (paragraph * paragraph) :=
  label <- Paragraph ("<b>" ++ capitalize key ++ "</b>:") NormalStyle ;;
  value <- Paragraph (str v) NormalStyle ;;
  Ok (label, value).

(** Lines 136-140: the selected fields the record has. *)
Definition selected_rows (record : dict) (selected_fields : list string)
  (data : list (paragraph * paragraph)) : result (list (paragraph * paragraph)) :=
  foldM (fun data field =>
           if mem field record then
             v <- getitem record field ;;
             row <- table_row field v ;;
             Ok (data ++ [row])%list
           else Ok data)
        selected_fields data.

(** Lines 143-147: the other fields of the record, the name apart. *)
Definition remaining_rows (record : dict) (selected_fields : list string)
  (data : list (paragraph * paragraph)) : result (list (paragraph * paragraph)) :=
  foldM (fun data kv =>
           let '(key, value) := kv in
           if negb (str_in key selected_fields) && negb (String.eqb key "nombre") then
             row <- table_row key value ;;
             Ok (data ++ [row])%list
           else Ok data)
        (items record) data.

Definition table_data (record : dict) (selected_fields : list string)
  : result (list (paragraph * paragraph)) :=
  data <- selected_rows record selected_fields [] ;;
  remaining_rows record selected_fields data.

Close Scope result_scope.
Open Scope stmt_scope.

(** The body of the [try] block, lines 118-175, for the record at index
    [i]. *)
Definition label_body (records : list dict) (selected_fields : list string)
  (i : nat) (record : dict) : stmt unit :=
  when (mem "nombre" record)
    (v <- lift (getitem record "nombre") ;;
     title <- lift (Paragraph (str v) TitleStyle) ;;
     append (FParagraph title)) ;;
  append (Spacer 3) ;;
  ' (qr_image, qr_data) <-
     lift (generate_qr_concatenated record selected_fields "|" 10) ;;
  append qr_image ;;
  append (Spacer 3) ;;
  data <- lift (table_data record selected_fields) ;;
  when (nonempty data) (append (Table data (25, 65)%nat)) ;;
  append (Spacer 2) ;;
  qr_note <- lift (Paragraph ("<i>QR: " ++ qr_data ++ "</i>") QRNote) ;;
  append (FParagraph qr_note) ;;
  when (Z.of_nat i <? Z.of_nat (length records) - 1)%Z (append PageBreak).

(** The [for] loop, lines 116-179: an exception of one record is caught
    and the loop goes on with [elements] as that record left it. *)
Definition label_elements (records : list dict) (selected_fields : list string)
  : list flowable :=
  fold_left
    (fun elements ir => fst (label_body records selected_fields (fst ir) (snd ir) elements))
    (enumerate records) [].

(** Lines 181-189: the document is built from [elements]; an exception
    of [doc.build] is raised again. *)
Definition generate_pdf (records : list dict) (selected_fields : list string)
  : result artifact :=
  let elements := label_elements records selected_fields in
  match doc_build elements with
  | Ok pdf_buffer => Ok pdf_buffer
  | Raise e => Raise e
  end.

Close Scope stmt_scope.

(** *** What the loop body does, read off the code

    The page of a record whose processing does not raise, and the
    elements after which the loop goes on. *)

Open Scope result_scope.

(** Lines 119-121. *)
Definition title_flowables (record : dict) : result (list flowable) :=
  if mem "nombre" record then
    v <- getitem record "nombre" ;;
    title <- Paragraph (str v) TitleStyle ;;
    Ok [FParagraph title]
  else Ok [].

(** Lines 150-160. *)
Definition table_flowables (data : list (paragraph * paragraph)) : list flowable :=
  if nonempty data then [Table data (25, 65)%nat] else [].

Definition label_page (selected_fields : list string) (record : dict)
  : result (list flowable) :=
  title <- title_flowables record ;;
  ' (qr_image, qr_data) <- generate_qr_concatenated record selected_fields "|" 10 ;;
  data <- table_data record selected_fields ;;
  qr_note <- Paragraph ("<i>QR: " ++ qr_data ++ "</i>") QRNote ;;
  Ok (title ++ [Spacer 3; qr_image; Spacer 3] ++ table_flowables data
        ++ [Spacer 2; FParagraph qr_note])%list.

(** Lines 174-175. *)
Definition break_after (records : list dict) (i : nat) : list flowable :=
  if (Z.of_nat i <? Z.of_nat (length records) - 1)%Z then [PageBreak] else [].

(** The loop from index [i] on, over the records [rest] still to visit. *)
Fixpoint label_loop (records : list dict) (selected_fields : list string)
  (i : nat) (rest : list dict) (elements : list flowable) : list flowable :=
  match rest with
  | [] => elements
  | record :: rest' =>
      label_loop records selected_fields (S i) rest'
        (fst (label_body records selected_fields i record elements))
  end.

(** Whether the body raises for the record at index [i].  The outcome is
    the same whatever [elements] holds when the body starts
    ([label_body_appends]), so it is read off a run from the empty list. *)
Definition raises (records : list dict) (selected_fields : list string)
  (i : nat) (record : dict) : bool :=
  negb (is_ok (snd (label_body records selected_fields i record []))).

(** For each record of the batch, whether its processing raises. *)
Definition failures (records : list dict) (selected_fields : list string)
  : list bool :=
  map (fun ir => raises records selected_fields (fst ir) (snd ir))
      (enumerate records).


(** The rows of the attribute table as the specification words them:
    the selected fields the record has, in selection order, then the
    fields of the record that are neither selected nor the name, in the
    record's order. *)
Definition table_entries (record : dict) (selected_fields : list string)
  : list (string * value) :=
  (flat_map (fun f => match lookup f record with
                      | Some v => [(f, v)]
                      | None => []
                      end) selected_fields
   ++ filter (fun kv => negb (str_in (fst kv) selected_fields)
                        && negb (String.eqb (fst kv) "nombre"))
             (items record))%list.

(** Every element mapped, up to the first exception. *)
Fixpoint map_result {A B} (f : A -> result B) (l : list A) : result (list B) :=
  match l with
  | [] => Ok []
  | x :: l' => y <- f x ;; ys <- map_result f l' ;; Ok (y :: ys)
  end.

Close Scope result_scope.

(** The row made from one entry of the table. *)
Definition entry_row (kv : string * value) : result (paragraph * paragraph) :=
  table_row (fst kv) (snd kv).

(** The row of an entry as the specification words it: the capitalised
    field name as label, the string form of the value. *)
Definition row_of (kv : string * value) : paragraph * paragraph :=
  (mkParagraph ("<b>" ++ capitalize (fst kv) ++ "</b>:") NormalStyle,
   mkParagraph (str (snd kv)) NormalStyle).

(** The markup of both cells of the entry's row is accepted. *)
Definition row_markup_ok (kv : string * value) : bool :=
  match markup_error ("<b>" ++ capitalize (fst kv) ++ "</b>:"),
        markup_error (str (snd kv)) with
  | None, None => true
  | _, _ => false
  end.


(** *** [StreamlitApp]

    One run of the script.  What the widgets return in the run is given
    by [widgets]; what the script displays is the list of calls it makes,
    in order; [st.session_state] is threaded.

    Column labels are texts here.  A sheet whose header holds a number
    has a label that is a number, for which the join of line 259 raises
    outside any handler when the column is ticked: such sheets are
    outside this model. *)

Record session := mkSession
  { ss_data : option (list dict);
    ss_file_uploaded : bool;
    ss_pdf_generated : bool;
    ss_pdf_buffer : option artifact;
    ss_selected_fields : list string }.

Record widgets := mkWidgets
  { file_uploader : option file;
    (** [st.checkbox(label, value=default)] *)
    checkbox : string -> bool -> bool;
    (** [st.button("Generar PDF")] *)
    button : bool }.

Inductive ui_call :=
| st_set_page_config (page_title page_icon layout : string)
| st_title (text : string)
| st_header (text : string)
| st_subheader (text : string)
| st_write (text : string)
| st_success (text : string)
| st_error (text : string)
| st_warning (text : string)
| st_info (text : string)
| st_spinner (text : string)
| st_dataframe (df : DataFrame)
| st_dataframe_records (records : option (list dict))
| st_download_button (label : string) (data : artifact) (file_name mime : string).

Definition initial_session : session := mkSession None false false None [].

(** [StreamlitApp.__init__], lines 194-208; [None] is a session state
    without the key ['data']. *)
Definition init (state : option session) : session * list ui_call :=
  (match state with
   | None => initial_session
   | Some s => s
   end,
   [st_set_page_config "Generador de Etiquetas QR" "🚀" "wide"]).

(** [StreamlitApp.reset_app], lines 209-215. *)
Definition reset_app (s : session) : session := initial_session.

Definition default_fields : list string :=
  ["ID"; "LOTE"; "PESO Kg"; "UNID. MEDIDA"].

(** Line 259. *)
Definition example_structure (selected_fields : list string) : string :=
  "|" ++ join "|" selected_fields ++ "|".

(** Lines 302-315. *)
Definition example_df : DataFrame :=
  mkDataFrame 1
    [("WOCO", [VInt 1001]); ("N. ESTIBA", [VStr "4"]); ("ID", [VStr "14X00.004"]);
     ("LOTE", [VStr "241105-9246"]); ("PEDIDO", [VStr "S345546"]);
     ("CANTIDAD BULTOS", [VStr "7"]); ("PESO Kg", [VStr "50"]);
     ("UNID. MEDIDA", [VStr "kg"])].

(** Lines 231-240.  The last component is the exception that ends the
    script, if one is raised. *)
Definition upload (w : widgets) (s : session) : session * list ui_call * option exn :=
  match file_uploader w with
  | Some uploaded_file =>
      if negb (ss_file_uploaded s) then
        match validate_excel uploaded_file with
        | (true, message, Some df) =>
            (mkSession (Some (to_dict_records df)) true
               (ss_pdf_generated s) (ss_pdf_buffer s) (ss_selected_fields s),
             [st_success message], None)
        | (true, message, None) =>
            (s, [],
             Some (Exn "AttributeError" "'NoneType' object has no attribute 'to_dict'"))
        | (false, message, _) => (s, [st_error message], None)
        end
      else (s, [], None)
  | None => (s, [], None)
  end.

(** Line 244. *)
Definition available_fields (s : session) : list string :=
  match ss_data s with
  | Some (record :: _) => keys record
  | _ => []
  end.

(** Lines 250-253. *)
Definition select_fields (w : widgets) (s : session) : list string :=
  filter (fun field => checkbox w field (str_in field default_fields))
         (available_fields s).

(** Lines 265-278. *)
Definition generate (w : widgets) (s : session) (selected_fields : list string)
  : session * list ui_call :=
  if button w && nonempty selected_fields then
    match
      match ss_data s with
      | Some records => generate_pdf records selected_fields
      | None => Raise (Exn "TypeError" "'NoneType' object is not iterable")
      end
    with
    | Ok pdf_buffer =>
        (mkSession (ss_data s) (ss_file_uploaded s) true (Some pdf_buffer)
           (ss_selected_fields s),
         [st_spinner "Generando etiquetas...";
          st_success "PDF generado con éxito (formato A6, una etiqueta por página)"])
    | Raise e =>
        (s,
         [st_spinner "Generando etiquetas...";
          st_error ("Error al generar el PDF: " ++ str e);
          st_error "Por favor, verifica que todos los campos sean válidos."])
    end
  else (s, []).

(** Lines 221-278: the sidebar. *)
Definition sidebar (w : widgets) (s : session) : session * list ui_call * option exn :=
  let '(s1, c1, crash) := upload w s in
  let c0 := [st_header "Configuración"] in
  match crash with
  | Some e => (s1, (c0 ++ c1)%list, Some e)
  | None =>
      if ss_file_uploaded s1 then
        let selected_fields := select_fields w s1 in
        let s2 := mkSession (ss_data s1) (ss_file_uploaded s1) (ss_pdf_generated s1)
                    (ss_pdf_buffer s1) selected_fields in
        let c2 := [st_subheader "Campos para incluir en el QR";
                   st_write "Selecciona los campos que deseas concatenar en el código QR:"] in
        let c3 := if nonempty selected_fields then
                    [st_write ("Estructura resultante: `"
                               ++ example_structure selected_fields ++ "`")]
                  else [st_warning "Debes seleccionar al menos un campo para el QR"] in
        let '(s3, c4) := generate w s2 selected_fields in
        (s3, (c0 ++ c1 ++ c2 ++ c3 ++ c4)%list, None)
      else (s1, (c0 ++ c1)%list, None)
  end.

(** Lines 281-318: the main area. *)
Definition main_area (s : session) : list ui_call :=
  if ss_file_uploaded s then
    ([st_header "Vista previa de datos"; st_dataframe_records (ss_data s)]
       ++ match ss_pdf_generated s, ss_pdf_buffer s with
          | true, Some pdf_buffer =>
              [st_header "Descarga";
               st_download_button "Descargar PDF" pdf_buffer
                 "etiquetas_qr_a6.pdf" "application/pdf"]
          | _, _ => []
          end)%list
  else
    [st_info "Por favor, carga un archivo Excel para comenzar.";
     st_header "Estructura esperada del Excel";
     st_dataframe example_df;
     st_write "El archivo debe contener al menos las columnas y nombres mostrados en la tabla de ejemplo.."].

(** [StreamlitApp.run], lines 216-318. *)
Definition run (w : widgets) (s : session) : session * list ui_call * option exn :=
  let '(s', calls, crash) := sidebar w s in
  match crash with
  | Some e => (s', st_title "Generador de Etiquetas QR" :: calls, Some e)
  | None =>
      (s', (st_title "Generador de Etiquetas QR" :: calls ++ main_area s')%list, None)
  end.

(** [main], lines 321-323. *)
Definition main (w : widgets) (state : option session)
  : session * list ui_call * option exn :=
  let '(s, c0) := init state in
  let '(s', calls, crash) := run w s in
  (s', (c0 ++ calls)%list, crash).

(** What holds of the session state between runs. *)
Definition session_ok (s : session) : Prop :=
  (ss_file_uploaded s = false ->
   ss_data s = None /\ ss_pdf_generated s = false /\ ss_pdf_buffer s = None)
  /\ (ss_file_uploaded s = true ->
      exists record records, ss_data s = Some (record :: records))
  /\ (ss_pdf_generated s = true <-> ss_pdf_buffer s <> None).

(** ** Properties of the payload *)

Lemma string_app_assoc (a b c : string) : (a ++ b) ++ c = a ++ (b ++ c).
Proof.
  induction a as [|x a IH]; simpl; [reflexivity | now rewrite IH].
Qed.

Lemma string_app_nil_r (a : string) : a ++ "" = a.
Proof.
  induction a as [|x a IH]; simpl; [reflexivity | now rewrite IH].
Qed.

Lemma field_text_segment (record : dict) (field : string) :
  field_text record field = segment_text record field.
Proof.
  unfold field_text, segment_text, get.
  destruct (lookup field record); reflexivity.
Qed.

(** The loop started from any accumulator appends the fields' segments. *)
Lemma payload_loop (record : dict) (separator : string) (sel : list string) :
  forall acc,
    fold_left (fun acc field => acc ++ (field_text record field ++ separator)) sel acc
    = acc ++ String.concat "" (map (fun f => segment_text record f ++ separator) sel).
Proof.
  induction sel as [|f sel IH]; intros acc; simpl.
  - now rewrite string_app_nil_r.
  - rewrite IH. rewrite string_app_assoc, field_text_segment.
    destruct sel as [|g sel]; simpl.
    + now rewrite !string_app_nil_r.
    + reflexivity.
Qed.

Lemma concatenated_data_spec (record : dict) (sel : list string) (separator : string) :
  concatenated_data record sel separator = payload_spec record sel separator.
Proof.
  unfold concatenated_data, payload_spec.
  rewrite payload_loop. now rewrite string_app_assoc.
Qed.

(** C1. The payload is the tag ["AR-QR"], the separator, then for each
    selected field in order the string form of its value (empty when the
    record lacks it) followed by the separator.  It is the string handed to
    the encoder and the one returned with the image.  The worked example
    gives ["AR-QR|14X00.004|241105-9246|50|"]. *)
Theorem payload_tag_then_fields :
  (forall (record : dict) (sel : list string) (separator : string) (box : nat),
      concatenated_data record sel separator = payload_spec record sel separator
      /\ generate_qr_concatenated record sel separator box
         = rbind (qr_make (mkQRCode 1 ERROR_CORRECT_L box 4)
                          (payload_spec record sel separator))
                 (fun matrix =>
                    Ok (Image (mkPng matrix box 4) 70 70,
                        payload_spec record sel separator)))
  /\ concatenated_data example_record example_selection "|"
     = "AR-QR|14X00.004|241105-9246|50|".
Proof.
  split; [|reflexivity].
  intros record sel separator box. split.
  - apply concatenated_data_spec.
  - unfold generate_qr_concatenated. now rewrite concatenated_data_spec.
Qed.

(** *** Dependence on the selected fields only *)

Lemma segment_text_agree (r1 r2 : dict) (f : string) :
  lookup f r1 = lookup f r2 -> segment_text r1 f = segment_text r2 f.
Proof.
  unfold segment_text. now intros ->.
Qed.

(** C10. Two records that agree on every selected field (same value, or
    absent in both) get the same payload, whatever their other fields
    are; the builder's whole result is the same. *)
Theorem payload_depends_on_selection
  (r1 r2 : dict) (sel : list string) (separator : string) (box : nat)
  (Hagree : forall f, In f sel -> lookup f r1 = lookup f r2) :
  concatenated_data r1 sel separator = concatenated_data r2 sel separator
  /\ generate_qr_concatenated r1 sel separator box
     = generate_qr_concatenated r2 sel separator box.
Proof.
  assert (E : concatenated_data r1 sel separator = concatenated_data r2 sel separator).
  { rewrite !concatenated_data_spec. unfold payload_spec.
    do 3 f_equal. apply map_ext_in. intros f Hf.
    now rewrite (segment_text_agree r1 r2 f (Hagree f Hf)). }
  split; [exact E|].
  unfold generate_qr_concatenated. now rewrite E.
Qed.

(** *** Segments *)

Lemma segments_closed (sep : ascii) (v rest : string) :
  contains sep v = false ->
  segments sep (v ++ String sep rest) = v :: segments sep rest.
Proof.
  induction v as [|c v IH]; simpl; intros H.
  - now rewrite Ascii.eqb_refl.
  - apply orb_false_iff in H. destruct H as [Hc Hv].
    rewrite Hc, (IH Hv). reflexivity.
Qed.

Lemma concat_cons (x : string) (l : list string) :
  String.concat "" (x :: l) = x ++ String.concat "" l.
Proof.
  destruct l; simpl; [now rewrite string_app_nil_r | reflexivity].
Qed.

Lemma char_app (c : ascii) (x : string) : String c "" ++ x = String c x.
Proof. reflexivity. Qed.

Lemma segments_fields (sep : ascii) (record : dict) (sel : list string) :
  (forall f, In f sel -> contains sep (segment_text record f) = false) ->
  segments sep
    (String.concat "" (map (fun f => segment_text record f ++ String sep "") sel))
  = map (segment_text record) sel.
Proof.
  induction sel as [|f sel IH]; intros H; [reflexivity|].
  rewrite map_cons, concat_cons, string_app_assoc.
  rewrite char_app.
  rewrite segments_closed by (apply H; now left).
  rewrite IH by (intros g Hg; apply H; now right).
  reflexivity.
Qed.

(** C2, amended. When neither the tag nor the text of a selected field
    holds the separator character, the segments of the payload are the tag
    and then one segment per selected field, in selection order: there are
    as many as the selection is long plus one, and a field the record lacks
    has the empty segment at its position. *)
Theorem payload_segments
  (sep : ascii) (record : dict) (sel : list string)
  (Htag : contains sep TAG = false)
  (Hval : forall f, In f sel -> contains sep (segment_text record f) = false) :
  let segs := segments sep (concatenated_data record sel (String sep "")) in
  segs = TAG :: map (segment_text record) sel
  /\ length segs = S (length sel)
  /\ (forall i f, nth_error sel i = Some f -> lookup f record = None ->
                  nth_error segs (S i) = Some "").
Proof.
  assert (E : segments sep (concatenated_data record sel (String sep ""))
              = TAG :: map (segment_text record) sel).
  { rewrite concatenated_data_spec. unfold payload_spec.
    rewrite char_app, segments_closed by exact Htag.
    now rewrite segments_fields. }
  cbv zeta. rewrite E. split; [reflexivity|]. split.
  - simpl. now rewrite length_map.
  - intros i f Hi Hf. simpl.
    rewrite nth_error_map, Hi. simpl.
    unfold segment_text. now rewrite Hf.
Qed.

(** ** Properties of the record normaliser *)

Lemma str_in_In (x : string) (l : list string) : str_in x l = true <-> In x l.
Proof.
  unfold str_in. rewrite existsb_exists. split.
  - intros [y [Hy E]]. apply String.eqb_eq in E. now subst.
  - intros H. exists x. split; [exact H | apply String.eqb_refl].
Qed.

Lemma str_in_not_In (x : string) (l : list string) : str_in x l = false <-> ~ In x l.
Proof.
  rewrite <- str_in_In. destruct (str_in x l); split; congruence.
Qed.

(** C4. A source read with zero rows, or without the marker column
    [WOCO], is refused: the flag is [False], the message says why, and no
    data frame is returned. *)
Theorem validate_excel_rejects
  (f : file) (df : DataFrame)
  (Hread : read_excel f = Ok df)
  (Hbad : index_len df = 0%nat \/ ~ In "WOCO" (columns df)) :
  validate_excel f
  = (false,
     if empty df then "El archivo Excel no contiene datos"
     else "Faltan las siguientes columnas: WOCO",
     None).
Proof.
  unfold validate_excel. rewrite Hread. cbn [rbind].
  destruct (empty df) eqn:He; [reflexivity|].
  destruct Hbad as [H0 | Hcol].
  - unfold empty in He. rewrite H0 in He. discriminate.
  - apply str_in_not_In in Hcol.
    unfold required_columns. cbn [filter]. rewrite Hcol. reflexivity.
Qed.

Lemma find_column_skip (c : string) (done rest : list (string * list value)) :
  ~ In c (map fst done) ->
  find_column c (done ++ rest)%list = find_column c rest.
Proof.
  induction done as [|[c' s'] done IH]; simpl; intros H; [reflexivity|].
  destruct (String.eqb_spec c c') as [->|Hne].
  - exfalso. apply H. now left.
  - apply IH. intros Hin. apply H. now right.
Qed.

Lemma replace_column_absent (c : string) (series : list value)
  (l : list (string * list value)) :
  ~ In c (map fst l) ->
  map (fun cs => if String.eqb c (fst cs) then (fst cs, series) else cs) l = l.
Proof.
  induction l as [|[c' s'] l IH]; simpl; intros H; [reflexivity|].
  destruct (String.eqb_spec c c') as [->|Hne].
  - exfalso. apply H. now left.
  - f_equal. apply IH. intros Hin. apply H. now right.
Qed.

(** One pass of the conversion loop on the column [c], which stands
    between [done] and [todo]. *)
Lemma convert_step (n : nat) (c : string) (s : list value)
  (done todo : list (string * list value)) :
  ~ In c (map fst done) -> ~ In c (map fst todo) ->
  let df := mkDataFrame n (done ++ (c, s) :: todo)%list in
  df_getitem df c = Ok s
  /\ df_setitem df c (astype_str s)
     = mkDataFrame n ((done ++ [coerce_column (c, s)]) ++ todo)%list.
Proof.
  intros Hdone Htodo df. split.
  - unfold df_getitem, df. cbn [data].
    rewrite find_column_skip by exact Hdone.
    cbn [find_column]. now rewrite String.eqb_refl.
  - unfold df_setitem, df, columns. cbn [data index_len].
    assert (Hin : str_in c (map fst (done ++ (c, s) :: todo)%list) = true).
    { apply str_in_In. rewrite map_app. apply in_or_app. right. now left. }
    rewrite Hin, map_app. cbn [map fst].
    rewrite String.eqb_refl.
    rewrite !replace_column_absent by assumption.
    rewrite <- app_assoc. reflexivity.
Qed.

(** The conversion loop, with the columns [done] already converted and
    the columns [todo] still to visit. *)
Lemma convert_loop (n : nat) (todo : list (string * list value)) :
  forall done,
    NoDup (map fst (done ++ todo)%list) ->
    foldM (fun df col =>
             rbind (df_getitem df col)
                   (fun series => Ok (df_setitem df col (astype_str series))))
          (map fst todo) (mkDataFrame n (done ++ todo)%list)
    = Ok (mkDataFrame n (done ++ map coerce_column todo)%list).
Proof.
  induction todo as [|[c s] todo IH]; intros done Hnd.
  - reflexivity.
  - pose proof Hnd as Hnd'.
    rewrite map_app in Hnd'. cbn [map fst] in Hnd'.
    pose proof (NoDup_remove_2 _ _ _ Hnd') as Hc.
    assert (Hdone : ~ In c (map fst done))
      by (intros H; apply Hc, in_or_app; now left).
    assert (Htodo : ~ In c (map fst todo))
      by (intros H; apply Hc, in_or_app; now right).
    destruct (convert_step n c s done todo Hdone Htodo) as [Hget Hset].
    cbn [map fst foldM]. rewrite Hget. cbn [rbind]. rewrite Hset.
    rewrite IH.
    + rewrite <- app_assoc. reflexivity.
    + rewrite <- app_assoc, map_app. cbn [app map fst coerce_column]. exact Hnd'.
Qed.

Lemma convert_columns_spec (df : DataFrame) :
  NoDup (columns df) ->
  convert_columns df
  = Ok (mkDataFrame (index_len df) (map coerce_column (data df))).
Proof.
  intros Hnd. unfold convert_columns, columns.
  destruct df as [n cols]. cbn [data index_len] in *.
  exact (convert_loop n cols [] Hnd).
Qed.

(** C9, what the code does.  A well-formed source with rows and the
    marker column is accepted; the data frame returned has the same
    header in the same order and the same number of rows, and each of its
    columns is what [astype(str)] of the data-frame library makes of the
    source column.  Read as records, row [i] has the header as keys and,
    for each column, the cell at place [i] of the converted column.  That
    every such cell is a string is not the code's doing: it holds only
    when the library converts every cell, which it does not for a missing
    one. *)
Theorem validate_excel_converts_columns
  (f : file) (df : DataFrame)
  (Hread : read_excel f = Ok df)
  (Hwf : wf_df df)
  (Hrows : empty df = false)
  (Hcol : In "WOCO" (columns df)) :
  let df' := mkDataFrame (index_len df) (map coerce_column (data df)) in
  validate_excel f = (true, "Archivo validado correctamente", Some df')
  /\ columns df' = columns df
  /\ index_len df' = index_len df
  /\ to_dict_records df'
     = map (fun i => map (fun cs => (fst cs, nth i (astype_str (snd cs)) VNone))
                         (data df))
           (seq 0 (index_len df)).
Proof.
  destruct Hwf as [Hnd Hlen]. cbv zeta. repeat split.
  - unfold validate_excel. rewrite Hread. cbn [rbind]. rewrite Hrows.
    apply str_in_In in Hcol.
    unfold required_columns. cbn [filter]. rewrite Hcol. cbn [negb nonempty].
    rewrite convert_columns_spec by exact Hnd. reflexivity.
  - unfold columns. cbn [data]. rewrite map_map. reflexivity.
  - unfold to_dict_records. cbn [data index_len].
    apply map_ext. intros i. rewrite map_map. reflexivity.
Qed.

(** ** Properties of the document assembler *)

(** *** Statements only append *)

Lemma appends_ret {A} (a : A) : appends (ret a).
Proof. intros els. unfold ret. simpl. now rewrite app_nil_r. Qed.

Lemma appends_lift {A} (r : result A) : appends (lift r).
Proof. intros els. unfold lift. simpl. now rewrite app_nil_r. Qed.

Lemma appends_append (f : flowable) : appends (append f).
Proof. intros els. reflexivity. Qed.

Lemma appends_bind {A B} (m : stmt A) (k : A -> stmt B) :
  appends m -> (forall a, appends (k a)) -> appends (bind m k).
Proof.
  intros Hm Hk els. unfold bind.
  rewrite (Hm els).
  destruct (m []) as [out [a|e]]; cbn [fst snd].
  - rewrite (Hk a (els ++ out)%list), (Hk a out). cbn [fst snd].
    now rewrite app_assoc.
  - reflexivity.
Qed.

Lemma appends_when (b : bool) (m : stmt unit) : appends m -> appends (when b m).
Proof. intros Hm. destruct b; [exact Hm | apply appends_ret]. Qed.

Create HintDb appends.
#[local] Hint Resolve appends_ret appends_lift appends_append appends_when : appends.

Ltac appends_steps :=
  repeat first
    [ apply appends_bind; [ | intros ? ]
    | apply appends_when
    | match goal with |- appends (match ?x with _ => _ end) => destruct x end
    | solve [ auto with appends ] ].

Lemma label_body_appends (records : list dict) (sel : list string)
  (i : nat) (record : dict) :
  appends (label_body records sel i record).
Proof.
  unfold label_body. appends_steps.
Qed.

(** *** The body on one record *)

(** A record whose page is made: the page is appended, and a break after
    it unless the record is the last. *)
Lemma label_body_ok (records : list dict) (sel : list string)
  (i : nat) (record : dict) (page : list flowable) :
  label_page sel record = Ok page ->
  label_body records sel i record []
  = ((page ++ break_after records i)%list, Ok tt).
Proof.
  unfold label_page, label_body, title_flowables, break_after.
  unfold when, bind, lift, append, ret.
  destruct (mem "nombre" record);
    [destruct (getitem record "nombre") as [v|e0]; cbn [rbind];
      [destruct (Paragraph (str v) TitleStyle) as [title|e1]; cbn [rbind]|]|];
    try discriminate;
    (destruct (generate_qr_concatenated record sel "|" 10) as [[img qr_data]|e2];
       cbn [rbind]; [|discriminate]);
    (destruct (table_data record sel) as [rows|e3]; cbn [rbind]; [|discriminate]);
    (destruct (Paragraph ("<i>QR: " ++ qr_data ++ "</i>") QRNote) as [note|e4];
       cbn [rbind]; [|discriminate]);
    intros H; injection H as <-;
    unfold table_flowables;
    destruct (nonempty rows);
    destruct (Z.of_nat i <? Z.of_nat (length records) - 1)%Z;
    cbn [app]; rewrite <- ?app_assoc; cbn [app]; rewrite ?app_nil_r;
    reflexivity.
Qed.

(** A record whose page is not made raises what the page raised. *)
Lemma label_body_raise (records : list dict) (sel : list string)
  (i : nat) (record : dict) (e : exn) :
  label_page sel record = Raise e ->
  snd (label_body records sel i record []) = Raise e.
Proof.
  unfold label_page, label_body, title_flowables.
  unfold when, bind, lift, append, ret.
  destruct (mem "nombre" record);
    [destruct (getitem record "nombre") as [v|e0]; cbn [rbind];
      [destruct (Paragraph (str v) TitleStyle) as [title|e1]; cbn [rbind]|]|];
    try (intros H; injection H as <-; reflexivity);
    (destruct (generate_qr_concatenated record sel "|" 10) as [[img qr_data]|e2];
       cbn [rbind]; [|intros H; injection H as <-; reflexivity]);
    (destruct (table_data record sel) as [rows|e3]; cbn [rbind];
       [|intros H; injection H as <-; reflexivity]);
    (destruct (Paragraph ("<i>QR: " ++ qr_data ++ "</i>") QRNote) as [note|e4];
       cbn [rbind]; [discriminate|]);
    intros H; injection H as <-;
    destruct (nonempty rows); reflexivity.
Qed.

Lemma raises_label_page (records : list dict) (sel : list string)
  (i : nat) (record : dict) :
  raises records sel i record = negb (is_ok (label_page sel record)).
Proof.
  unfold raises. destruct (label_page sel record) as [page|e] eqn:E.
  - now rewrite (label_body_ok records sel i record page E).
  - now rewrite (label_body_raise records sel i record e E).
Qed.

(** The body run on any list of elements. *)
Lemma label_body_run (records : list dict) (sel : list string)
  (i : nat) (record : dict) (page : list flowable) (els : list flowable) :
  label_page sel record = Ok page ->
  fst (label_body records sel i record els)
  = (els ++ page ++ break_after records i)%list.
Proof.
  intros H. rewrite (label_body_appends records sel i record els).
  rewrite (label_body_ok records sel i record page H). reflexivity.
Qed.

Lemma break_after_last (records : list dict) (i : nat) :
  S i = length records -> break_after records i = [].
Proof.
  intros H. unfold break_after.
  destruct (Z.ltb_spec (Z.of_nat i) (Z.of_nat (length records) - 1)); [lia | reflexivity].
Qed.

Lemma break_after_inner (records : list dict) (i : nat) :
  (S i < length records)%nat -> break_after records i = [PageBreak].
Proof.
  intros H. unfold break_after.
  destruct (Z.ltb_spec (Z.of_nat i) (Z.of_nat (length records) - 1)); [reflexivity | lia].
Qed.

(** *** The loop *)

Lemma fold_label_loop (records : list dict) (sel : list string) (rest : list dict) :
  forall k els,
    fold_left
      (fun elements ir => fst (label_body records sel (fst ir) (snd ir) elements))
      (combine (seq k (length rest)) rest) els
    = label_loop records sel k rest els.
Proof.
  induction rest as [|r rest IH]; intros k els; [reflexivity|].
  cbn [length seq combine fold_left label_loop fst snd]. apply IH.
Qed.

Lemma label_elements_loop (records : list dict) (sel : list string) :
  label_elements records sel = label_loop records sel 0 records [].
Proof.
  apply fold_label_loop.
Qed.

Lemma label_loop_app (records : list dict) (sel : list string)
  (l1 l2 : list dict) :
  forall i els,
    label_loop records sel i (l1 ++ l2)%list els
    = label_loop records sel (i + length l1) l2 (label_loop records sel i l1 els).
Proof.
  induction l1 as [|r l1 IH]; intros i els; cbn [app label_loop length].
  - now rewrite Nat.add_0_r.
  - rewrite IH. now rewrite Nat.add_succ_r.
Qed.

(** Records up to the last one of the batch, all of which make their
    page: the pages follow one another with a break between two. *)
Lemma label_loop_to_end (records : list dict) (sel : list string)
  (rest : list dict) (pages : list (list flowable)) :
  Forall2 (fun r p => label_page sel r = Ok p) rest pages ->
  forall i els,
    (i + length rest = length records)%nat ->
    label_loop records sel i rest els = (els ++ join_pages pages)%list.
Proof.
  induction 1 as [|r p rest pages Hp Hrest IH]; intros i els Hi.
  - cbn. now rewrite app_nil_r.
  - cbn [label_loop length] in *.
    rewrite (label_body_run records sel i r p els Hp).
    rewrite IH by lia.
    destruct Hrest as [|r' p' rest' pages' Hp' Hrest'].
    + cbn [join_pages length] in *.
      rewrite break_after_last by lia. now rewrite !app_nil_r.
    + cbn [length] in Hi.
      rewrite break_after_inner by lia.
      cbn [join_pages]. rewrite <- !app_assoc. reflexivity.
Qed.

(** Records followed by at least one more: each page is followed by a
    break. *)
Lemma label_loop_inner (records : list dict) (sel : list string)
  (rest : list dict) (pages : list (list flowable)) :
  Forall2 (fun r p => label_page sel r = Ok p) rest pages ->
  forall i els,
    (i + length rest < length records)%nat ->
    label_loop records sel i rest els
    = (els ++ concat (map (fun p => p ++ [PageBreak]) pages))%list.
Proof.
  induction 1 as [|r p rest pages Hp Hrest IH]; intros i els Hi.
  - cbn. now rewrite app_nil_r.
  - cbn [label_loop length] in *.
    rewrite (label_body_run records sel i r p els Hp).
    rewrite IH by lia.
    rewrite break_after_inner by lia.
    cbn [map concat]. rewrite <- !app_assoc. reflexivity.
Qed.

(** *** Pages of a story *)

Lemma split_pages_one (p : list flowable) :
  no_break p -> p <> [] -> split_pages p = [p].
Proof.
  induction 1 as [|f p Hf Hp IH]; intros Hne; [congruence|].
  cbn [split_pages]. rewrite Hf.
  destruct p as [|g p]; [reflexivity|].
  rewrite IH by discriminate. reflexivity.
Qed.

Lemma split_pages_break (p rest : list flowable) :
  no_break p ->
  split_pages (p ++ PageBreak :: rest) = p :: split_pages rest.
Proof.
  induction 1 as [|f p Hf Hp IH]; cbn [app split_pages].
  - reflexivity.
  - rewrite Hf, IH. reflexivity.
Qed.

Lemma split_join_pages (pages : list (list flowable)) :
  Forall (fun p => no_break p /\ p <> []) pages ->
  split_pages (join_pages pages) = pages.
Proof.
  induction 1 as [|p pages [Hnb Hne] Hrest IH]; [reflexivity|].
  cbn [join_pages]. destruct pages as [|q pages].
  - now apply split_pages_one.
  - rewrite split_pages_break by exact Hnb. now rewrite IH.
Qed.

Lemma page_breaks_app (a b : list flowable) :
  page_breaks (a ++ b) = (page_breaks a + page_breaks b)%nat.
Proof.
  unfold page_breaks. now rewrite filter_app, length_app.
Qed.

Lemma page_breaks_none (p : list flowable) : no_break p -> page_breaks p = 0%nat.
Proof.
  unfold page_breaks. induction 1 as [|f p Hf Hp IH]; [reflexivity|].
  cbn [filter]. now rewrite Hf.
Qed.


(** A page that is made has content and no break in it. *)
Lemma label_page_no_break (sel : list string) (record : dict) (page : list flowable) :
  label_page sel record = Ok page -> no_break page /\ page <> [].
Proof.
  unfold label_page, title_flowables, generate_qr_concatenated, table_flowables.
  destruct (mem "nombre" record);
    [destruct (getitem record "nombre") as [v|e0]; cbn [rbind];
      [destruct (Paragraph (str v) TitleStyle) as [title|e1]; cbn [rbind]|]|];
    try discriminate;
    (destruct (qr_make _ _) as [matrix|e2]; cbn [rbind]; [|discriminate]);
    (destruct (table_data record sel) as [rows|e3]; cbn [rbind]; [|discriminate]);
    (destruct (Paragraph _ QRNote) as [note|e4]; cbn [rbind]; [|discriminate]);
    intros H; injection H as <-;
    destruct (nonempty rows); cbn [app];
    (split; [repeat constructor | discriminate]).
Qed.

Lemma pages_no_break (sel : list string) (records : list dict)
  (pages : list (list flowable)) :
  Forall2 (fun r p => label_page sel r = Ok p) records pages ->
  Forall (fun p => no_break p /\ p <> []) pages.
Proof.
  induction 1 as [|r p records pages Hp Hrest IH]; constructor.
  - exact (label_page_no_break sel r p Hp).
  - exact IH.
Qed.



Lemma generate_pdf_build (records : list dict) (sel : list string) :
  generate_pdf records sel = doc_build (label_elements records sel).
Proof.
  unfold generate_pdf. now destruct (doc_build (label_elements records sel)).
Qed.





(** An exception of the encoder is the builder's. *)
Lemma unencodable_payload_raises
  (record : dict) (sel : list string) (separator : string) (box : nat) (e : exn)
  (Hfull : qr_make (mkQRCode 1 ERROR_CORRECT_L box 4)
                   (concatenated_data record sel separator) = Raise e) :
  generate_qr_concatenated record sel separator box = Raise e.
Proof.
  unfold generate_qr_concatenated. now rewrite Hfull.
Qed.

(** C6. When building the document from the accumulated elements raises,
    the generation raises the same exception and returns no artifact. *)
Theorem build_failure_is_fatal
  (records : list dict) (sel : list string) (e : exn)
  (Hbuild : doc_build (label_elements records sel) = Raise e) :
  generate_pdf records sel = Raise e
  /\ forall pdf, generate_pdf records sel <> Ok pdf.
Proof.
  rewrite generate_pdf_build, Hbuild. split; [reflexivity | discriminate].
Qed.

(** *** The attribute table *)

Lemma map_result_app {A B} (f : A -> result B) (a b : list A) :
  map_result f (a ++ b)
  = rbind (map_result f a)
          (fun xs => rbind (map_result f b) (fun ys => Ok (xs ++ ys)%list)).
Proof.
  induction a as [|x a IH]; cbn [app map_result rbind].
  - destruct (map_result f b); reflexivity.
  - destruct (f x) as [y|e]; cbn [rbind]; [|reflexivity].
    rewrite IH. destruct (map_result f a) as [xs|e]; cbn [rbind]; [|reflexivity].
    destruct (map_result f b); reflexivity.
Qed.

(** A loop that appends to [data] the row of each entry it keeps makes
    the rows of the kept entries, in order, after [data]. *)
Lemma rows_loop {X} (keep : X -> list (string * value))
  (step : list (paragraph * paragraph) -> X -> result (list (paragraph * paragraph)))
  (Hstep : forall data x,
      step data x
      = rbind (map_result entry_row (keep x)) (fun rows => Ok (data ++ rows)%list))
  (l : list X) :
  forall data,
    foldM step l data
    = rbind (map_result entry_row (flat_map keep l))
            (fun rows => Ok (data ++ rows)%list).
Proof.
  induction l as [|x l IH]; intros data; cbn [foldM flat_map map_result rbind].
  - now rewrite app_nil_r.
  - rewrite Hstep, map_result_app.
    destruct (map_result entry_row (keep x)) as [xs|e]; cbn [rbind]; [|reflexivity].
    rewrite IH.
    destruct (map_result entry_row (flat_map keep l)) as [ys|e]; cbn [rbind];
      [now rewrite app_assoc | reflexivity].
Qed.

Lemma selected_rows_spec (record : dict) (sel : list string)
  (data : list (paragraph * paragraph)) :
  selected_rows record sel data
  = rbind (map_result entry_row
             (flat_map (fun f => match lookup f record with
                                 | Some v => [(f, v)]
                                 | None => []
                                 end) sel))
          (fun rows => Ok (data ++ rows)%list).
Proof.
  unfold selected_rows. apply rows_loop. clear data.
  intros data f. unfold mem, getitem.
  destruct (lookup f record) as [v|]; cbn [rbind map_result].
  - unfold entry_row at 1. cbn [fst snd].
    destruct (table_row f v); reflexivity.
  - now rewrite app_nil_r.
Qed.

Lemma filter_flat_map {X} (p : X -> bool) (l : list X) :
  filter p l = flat_map (fun x => if p x then [x] else []) l.
Proof.
  induction l as [|x l IH]; cbn [filter flat_map]; [reflexivity|].
  rewrite IH. now destruct (p x).
Qed.

Lemma remaining_rows_spec (record : dict) (sel : list string)
  (data : list (paragraph * paragraph)) :
  remaining_rows record sel data
  = rbind (map_result entry_row
             (filter (fun kv => negb (str_in (fst kv) sel)
                                && negb (String.eqb (fst kv) "nombre"))
                     (items record)))
          (fun rows => Ok (data ++ rows)%list).
Proof.
  unfold remaining_rows. rewrite filter_flat_map. apply rows_loop. clear data.
  intros data [key v]. cbn [fst snd].
  destruct (negb (str_in key sel) && negb (String.eqb key "nombre"));
    cbn [rbind map_result].
  - unfold entry_row at 1. cbn [fst snd].
    destruct (table_row key v); reflexivity.
  - now rewrite app_nil_r.
Qed.

Lemma table_data_entries (record : dict) (sel : list string) :
  table_data record sel = map_result entry_row (table_entries record sel).
Proof.
  unfold table_data, table_entries.
  rewrite selected_rows_spec, map_result_app.
  destruct (map_result entry_row (flat_map _ sel)) as [xs|e]; cbn [rbind app];
    [|reflexivity].
  apply remaining_rows_spec.
Qed.

Lemma entry_row_ok (kv : string * value) :
  row_markup_ok kv = true -> entry_row kv = Ok (row_of kv).
Proof.
  unfold row_markup_ok, entry_row, table_row, Paragraph, row_of.
  destruct (markup_error ("<b>" ++ capitalize (fst kv) ++ "</b>:")); [discriminate|].
  destruct (markup_error (str (snd kv))); [discriminate|].
  reflexivity.
Qed.

Lemma map_result_ok {A B} (f : A -> result B) (g : A -> B) (l : list A) :
  (forall x, In x l -> f x = Ok (g x)) -> map_result f l = Ok (map g l).
Proof.
  induction l as [|x l IH]; intros H; cbn [map_result map]; [reflexivity|].
  rewrite (H x (or_introl eq_refl)). cbn [rbind].
  rewrite IH by (intros y Hy; apply H; now right). reflexivity.
Qed.

(** What the body appends when it ends without raising. *)
Lemma label_body_returns (records : list dict) (sel : list string)
  (i : nat) (record : dict) (els els' : list flowable) :
  label_body records sel i record els = (els', Ok tt) ->
  exists page,
    label_page sel record = Ok page
    /\ els' = (els ++ page ++ break_after records i)%list.
Proof.
  intros H.
  destruct (label_page sel record) as [page|e] eqn:E.
  - exists page. split; [reflexivity|].
    pose proof (label_body_run records sel i record page els E) as Hrun.
    rewrite H in Hrun. exact Hrun.
  - pose proof (label_body_raise records sel i record e E) as Hr.
    rewrite (label_body_appends records sel i record els) in H.
    injection H as _ H. congruence.
Qed.

Lemma label_page_tables (sel : list string) (record : dict)
  (page : list flowable) (rows : list (paragraph * paragraph)) :
  label_page sel record = Ok page ->
  table_data record sel = Ok rows ->
  filter is_table page = if nonempty rows then [Table rows (25, 65)%nat] else [].
Proof.
  unfold label_page, title_flowables, generate_qr_concatenated, table_flowables.
  intros H Hrows. rewrite Hrows in H. cbn [rbind] in H. revert H.
  destruct (mem "nombre" record);
    [destruct (getitem record "nombre") as [v|e0]; cbn [rbind];
      [destruct (Paragraph (str v) TitleStyle) as [title|e1]; cbn [rbind]|]|];
    try discriminate;
    (destruct (qr_make _ _) as [matrix|e2]; cbn [rbind]; [|discriminate]);
    (destruct (Paragraph _ QRNote) as [note|e4]; cbn [rbind]; [|discriminate]);
    intros H; injection H as <-;
    destruct (nonempty rows); reflexivity.
Qed.

(** C8. The rows of the attribute table are made, in this order, from
    the selected fields the record has, in selection order, and then
    from the fields of the record that are neither selected nor [nombre],
    in the record's order; with accepted markup each row is the
    capitalised name and the value's string form.  Fields [A, B, C, D]
    with selection [C, A] give C, A, B, D.  A record that ends its
    processing has its page appended, and the page holds the table when
    there are rows and no table when there are none. *)
Theorem attribute_table_order :
  (forall record sel,
      table_data record sel = map_result entry_row (table_entries record sel))
  /\ (forall record sel,
         forallb row_markup_ok (table_entries record sel) = true ->
         table_data record sel = Ok (map row_of (table_entries record sel)))
  /\ map fst (table_entries abcd_record ["C"; "A"]) = ["C"; "A"; "B"; "D"]
  /\ (forall records sel i record els els' rows,
         label_body records sel i record els = (els', Ok tt) ->
         table_data record sel = Ok rows ->
         exists page,
           els' = (els ++ page ++ break_after records i)%list
           /\ page <> []
           /\ filter is_table page
              = if nonempty rows then [Table rows (25, 65)%nat] else []).
Proof.
  split; [exact table_data_entries|]. split; [|split; [reflexivity|]].
  - intros record sel H. rewrite table_data_entries.
    apply map_result_ok. intros kv Hkv. apply entry_row_ok.
    rewrite forallb_forall in H. now apply H.
  - intros records sel i record els els' rows Hrun Hrows.
    destruct (label_body_returns records sel i record els els' Hrun)
      as [page [Hpage Hels]].
    exists page. split; [exact Hels|]. split.
    + exact (proj2 (label_page_no_break sel record page Hpage)).
    + exact (label_page_tables sel record page rows Hpage Hrows).
Qed.

(** *** A record that raises *)

(** A record that raises after its title was made leaves the title and
    the first spacer in [elements], and whatever else it had appended
    before the exception; the page break is not among it. *)
Lemma label_body_leak (records : list dict) (sel : list string)
  (i : nat) (record : dict) (title : list flowable) :
  title_flowables record = Ok title ->
  raises records sel i record = true ->
  exists tail,
    fst (label_body records sel i record []) = (title ++ Spacer 3 :: tail)%list
    /\ no_break (title ++ Spacer 3 :: tail).
Proof.
  unfold raises, label_body, title_flowables, generate_qr_concatenated.
  unfold when, bind, lift, append, ret.
  destruct (mem "nombre" record);
    [destruct (getitem record "nombre") as [v|e0]; cbn [rbind];
      [destruct (Paragraph (str v) TitleStyle) as [t|e1]; cbn [rbind]|]|];
    try discriminate;
    intros H; injection H as <-;
    (destruct (qr_make _ _) as [matrix|e2]; cbn [rbind fst snd app];
       [|intros _; exists []; split; [reflexivity | repeat constructor]]);
    (destruct (table_data record sel) as [rows|e3]; cbn [rbind fst snd app];
       [|intros _; eexists; split; [reflexivity | repeat constructor]]);
    destruct (nonempty rows); cbn [fst snd app];
    (destruct (Paragraph _ QRNote) as [note|e4]; cbn [rbind fst snd app];
       [|intros _; eexists; split; [reflexivity | repeat constructor]]);
    destruct (Z.of_nat i <? Z.of_nat (length records) - 1)%Z;
    cbn [fst snd is_ok negb]; discriminate.
Qed.

Lemma failures_pages (records : list dict) (sel : list string) :
  failures records sel = map (fun r => negb (is_ok (label_page sel r))) records.
Proof.
  unfold failures, enumerate. generalize 0%nat as k.
  generalize records at 1 as all.
  induction records as [|r rest IH]; intros all k; [reflexivity|].
  cbn [length seq combine map fst snd].
  now rewrite raises_label_page, IH.
Qed.

Lemma app_eq_length {A} (a a' b b' : list A) :
  length a = length a' -> (a ++ b = a' ++ b')%list -> a = a' /\ b = b'.
Proof.
  revert a'. induction a as [|x a IH]; intros [|x' a'] Hlen H;
    try discriminate; cbn in *.
  - now split.
  - injection H as -> H. injection Hlen as Hlen.
    destruct (IH a' Hlen H) as [-> ->]. now split.
Qed.

Lemma none_raise_pages (sel : list string) (records : list dict) :
  map (fun r => negb (is_ok (label_page sel r))) records
  = repeat false (length records) ->
  exists pages, Forall2 (fun r p => label_page sel r = Ok p) records pages.
Proof.
  induction records as [|r rest IH]; cbn [map length repeat]; intros H.
  - exists []. constructor.
  - injection H as Hr Hrest.
    destruct (label_page sel r) as [p|e] eqn:Ep; [|discriminate].
    destruct (IH Hrest) as [pages Hpages].
    exists (p :: pages). now constructor.
Qed.

Lemma split_pages_closed (pages : list (list flowable)) (rest : list flowable) :
  Forall (fun p => no_break p /\ p <> []) pages ->
  split_pages (concat (map (fun p => p ++ [PageBreak]) pages) ++ rest)%list
  = (pages ++ split_pages rest)%list.
Proof.
  induction 1 as [|p pages [Hnb _] _ IH]; [reflexivity|].
  cbn [map concat app]. rewrite <- !app_assoc. cbn [app].
  rewrite split_pages_break by exact Hnb. now rewrite IH.
Qed.

(** Elements without a break put before pages join the first page. *)
Lemma split_pages_prefix (leak : list flowable) (pages : list (list flowable)) :
  no_break leak -> leak <> [] ->
  Forall (fun p => no_break p /\ p <> []) pages ->
  split_pages (leak ++ join_pages pages)%list
  = match pages with
    | [] => [leak]
    | p :: rest => (leak ++ p)%list :: rest
    end.
Proof.
  intros Hnb Hne Hpages.
  destruct Hpages as [|p pages [Hp Hpne] Hrest].
  - cbn [join_pages]. rewrite app_nil_r. now apply split_pages_one.
  - assert (Hjoin : (leak ++ join_pages (p :: pages))%list
                    = join_pages ((leak ++ p)%list :: pages)).
    { cbn [join_pages]. destruct pages; [reflexivity|].
      now rewrite <- app_assoc. }
    rewrite Hjoin. apply split_join_pages. constructor; [|exact Hrest].
    split.
    + apply Forall_app. now split.
    + destruct leak; [congruence | discriminate].
Qed.

(** C3, what the code does.  In a batch where one record raises after
    its title was made (while rendering the code, building the table or
    the footnote) and no other record raises, the loop goes on and the
    document is built, but the elements the record appended before the
    exception stay in the story: its title and a spacer at least.  They
    begin the page of the next record; when the record is the last of the
    batch they make a page of their own, and the story lays out as many
    pages as there are records. *)
Theorem failed_record_leaves_elements
  (before after : list dict) (record : dict) (sel : list string)
  (title : list flowable)
  (Hone : failures (before ++ record :: after)%list sel
          = (repeat false (length before) ++ true :: repeat false (length after))%list)
  (Htitle : title_flowables record = Ok title) :
  let records := (before ++ record :: after)%list in
  exists pages_before pages_after tail,
    let leak := (title ++ Spacer 3 :: tail)%list in
    Forall2 (fun r p => label_page sel r = Ok p) before pages_before
    /\ Forall2 (fun r p => label_page sel r = Ok p) after pages_after
    /\ label_elements records sel
       = (concat (map (fun p => p ++ [PageBreak]) pages_before)
            ++ leak ++ join_pages pages_after)%list
    /\ generate_pdf records sel = doc_build (label_elements records sel)
    /\ split_pages (label_elements records sel)
       = (pages_before
            ++ match pages_after with
               | [] => [leak]
               | p :: rest => (leak ++ p) :: rest
               end)%list
    /\ (after = [] ->
        length (split_pages (label_elements records sel)) = length records).
Proof.
  intros records.
  rewrite failures_pages, map_app in Hone. cbn [map] in Hone.
  apply app_eq_length in Hone; [|now rewrite length_map, repeat_length].
  destruct Hone as [Hb Hra]. injection Hra as Hrec Ha.
  destruct (none_raise_pages sel before Hb) as [pb Hpb].
  destruct (none_raise_pages sel after Ha) as [pa Hpa].
  assert (Hraise : raises records sel (length before) record = true)
    by now rewrite raises_label_page.
  destruct (label_body_leak records sel (length before) record title Htitle Hraise)
    as [tail [Hleak Hnb]].
  assert (Hlen : length records = (length before + S (length after))%nat)
    by (unfold records; now rewrite length_app).
  assert (Hstory : label_elements records sel
                   = (concat (map (fun p => p ++ [PageBreak]) pb)
                        ++ (title ++ Spacer 3 :: tail) ++ join_pages pa)%list).
  { rewrite label_elements_loop. unfold records at 2.
    rewrite label_loop_app. cbn [label_loop Nat.add].
    rewrite (label_loop_inner records sel before pb Hpb 0 []) by (cbn; lia).
    rewrite (label_body_appends records sel (length before) record).
    cbn [fst app]. rewrite Hleak.
    rewrite (label_loop_to_end records sel after pa Hpa) by (cbn; lia).
    now rewrite <- !app_assoc. }
  pose proof (pages_no_break sel before pb Hpb) as Hnbb.
  pose proof (pages_no_break sel after pa Hpa) as Hnba.
  assert (Hne : (title ++ Spacer 3 :: tail)%list <> [])
    by (destruct title; discriminate).
  assert (Hsplit : split_pages (label_elements records sel)
                   = (pb ++ match pa with
                            | [] => [(title ++ Spacer 3 :: tail)%list]
                            | p :: rest => ((title ++ Spacer 3 :: tail) ++ p)%list :: rest
                            end)%list).
  { rewrite Hstory, split_pages_closed by exact Hnbb.
    now rewrite split_pages_prefix. }
  exists pb, pa, tail. cbv zeta. repeat split.
  - exact Hpb.
  - exact Hpa.
  - exact Hstory.
  - apply generate_pdf_build.
  - exact Hsplit.
  - intros ->. rewrite Hsplit.
    inversion Hpa; subst. rewrite length_app, Hlen. cbn [length].
    now rewrite (Forall2_length Hpb).
Qed.

(** ** Further properties of the record normaliser *)

Lemma find_column_present (col : string) (cs : list (string * list value)) :
  In col (map fst cs) -> exists series, find_column col cs = Some series.
Proof.
  clear qr_make markup_error doc_build.
  induction cs as [|[c s0] cs IH]; cbn [map fst find_column In]; [tauto|].
  intros [-> | H].
  - rewrite String.eqb_refl. now exists s0.
  - destruct (String.eqb col c); [now exists s0 | now apply IH].
Qed.

Lemma replace_column_names (col : string) (series : list value)
  (cs : list (string * list value)) :
  map fst (map (fun c => if String.eqb col (fst c) then (fst c, series) else c) cs)
  = map fst cs.
Proof.
  rewrite map_map. apply map_ext. intros [c s0]. cbn [fst].
  now destruct (String.eqb col c).
Qed.

(** Rewriting a column that is there keeps the header and the rows. *)
Lemma df_setitem_present (df : DataFrame) (col : string) (series : list value) :
  In col (columns df) ->
  columns (df_setitem df col series) = columns df
  /\ index_len (df_setitem df col series) = index_len df.
Proof.
  intros H. unfold df_setitem.
  apply str_in_In in H. rewrite H. unfold columns. cbn [data index_len].
  now rewrite replace_column_names.
Qed.

Lemma convert_names_total (names : list string) :
  forall df,
    incl names (columns df) ->
    exists df',
      foldM (fun df col =>
               rbind (df_getitem df col)
                     (fun series => Ok (df_setitem df col (astype_str series))))
            names df = Ok df'
      /\ columns df' = columns df
      /\ index_len df' = index_len df.
Proof.
  clear qr_make markup_error doc_build.
  induction names as [|col names IH]; intros df Hincl; cbn [foldM].
  - now exists df.
  - assert (Hcol : In col (columns df)) by (apply Hincl; now left).
    destruct (find_column_present col (data df) Hcol) as [series Hs].
    unfold df_getitem at 1. rewrite Hs. cbn [rbind].
    destruct (df_setitem_present df col (astype_str series) Hcol) as [Hc Hn].
    destruct (IH (df_setitem df col (astype_str series))) as (df' & Hrun & Hc' & Hn').
    + rewrite Hc. intros x Hx. apply Hincl. now right.
    + exists df'. rewrite Hrun, Hc', Hn', Hc, Hn. now repeat split.
Qed.

(** The conversion loop never raises and keeps header and row count. *)
Lemma convert_columns_total (df : DataFrame) :
  exists df',
    convert_columns df = Ok df'
    /\ columns df' = columns df
    /\ index_len df' = index_len df.
Proof.
  clear qr_make markup_error doc_build.
  apply convert_names_total. apply incl_refl.
Qed.

Lemma nonempty_missing_woco (df : DataFrame) :
  nonempty (filter (fun col => negb (str_in col (columns df))) required_columns)
  = negb (str_in "WOCO" (columns df)).
Proof.
  unfold required_columns. cbn [filter].
  now destruct (str_in "WOCO" (columns df)).
Qed.

(** X1. The validator has four outcomes and no other: the data frame
    with the acceptance message; or no data frame and one of three
    messages, the last of which only when reading the file raised.  The
    flag is [True] exactly when a data frame is returned. *)
Theorem validate_excel_outcomes (f : file) :
  match validate_excel f with
  | (true, message, Some _) => message = "Archivo validado correctamente"
  | (false, message, None) =>
      message = "El archivo Excel no contiene datos"
      \/ message = "Faltan las siguientes columnas: WOCO"
      \/ exists e, read_excel f = Raise e
                   /\ message = "Error al procesar el archivo: " ++ str e
  | _ => False
  end.
Proof.
  clear qr_make markup_error doc_build.
  unfold validate_excel.
  destruct (read_excel f) as [df|e]; cbn [rbind].
  - destruct (empty df); [now left|].
    rewrite nonempty_missing_woco.
    destruct (str_in "WOCO" (columns df)) eqn:Hc; cbn [negb].
    + destruct (convert_columns_total df) as (df' & -> & _). reflexivity.
    + unfold required_columns. cbn [filter]. rewrite Hc. cbn. right. left. reflexivity.
  - right. right. exists e. split; reflexivity.
Qed.

Lemma empty_false (df : DataFrame) :
  empty df = false <-> index_len df <> 0%nat /\ data df <> [].
Proof.
  clear qr_make markup_error doc_build.
  unfold empty. rewrite orb_false_iff, !Nat.eqb_neq.
  destruct (data df); cbn [length]; intuition (try congruence; try lia).
Qed.

(** X2. A sheet that was read is accepted exactly when it has a row and
    a column named [WOCO]; nothing else about it is looked at. *)
Theorem validate_excel_accepts_iff (f : file) (df : DataFrame)
  (Hread : read_excel f = Ok df) :
  fst (fst (validate_excel f)) = true
  <-> index_len df <> 0%nat /\ In "WOCO" (columns df).
Proof.
  clear qr_make markup_error doc_build.
  unfold validate_excel. rewrite Hread. cbn [rbind].
  destruct (empty df) eqn:He.
  - cbn [fst]. split; [discriminate|]. intros [Hn Hc].
    assert (Hf : empty df = false).
    { apply empty_false. split; [exact Hn|].
      unfold columns in Hc. destruct (data df); [contradiction | discriminate]. }
    congruence.
  - apply empty_false in He. destruct He as [Hn _].
    rewrite nonempty_missing_woco.
    destruct (str_in "WOCO" (columns df)) eqn:Hc; cbn [negb].
    + destruct (convert_columns_total df) as (df' & -> & _). cbn [rbind fst].
      apply str_in_In in Hc. tauto.
    + cbn [fst]. apply str_in_not_In in Hc. split; [discriminate | tauto].
Qed.

(** What validation returns for a well-formed sheet it accepts. *)
Lemma validate_excel_accepted (f : file) (df df' : DataFrame) (message : string) :
  read_excel f = Ok df -> wf_df df ->
  validate_excel f = (true, message, Some df') ->
  df' = mkDataFrame (index_len df) (map coerce_column (data df))
  /\ message = "Archivo validado correctamente"
  /\ empty df = false
  /\ In "WOCO" (columns df).
Proof.
  intros Hread [Hnd _]. unfold validate_excel. rewrite Hread. cbn [rbind].
  destruct (empty df); [discriminate|].
  rewrite nonempty_missing_woco.
  destruct (str_in "WOCO" (columns df)) eqn:Hc; cbn [negb]; [|discriminate].
  rewrite convert_columns_spec by exact Hnd. cbn [rbind].
  intros H. injection H as <- <-. apply str_in_In in Hc. now repeat split.
Qed.

(** ** Further properties of the payload *)

Lemma string_length_app (a b : string) :
  String.length (a ++ b) = (String.length a + String.length b)%nat.
Proof.
  induction a as [|c a IH]; simpl; [reflexivity | now rewrite IH].
Qed.

Lemma prefix_app (a b : string) : String.prefix a (a ++ b) = true.
Proof.
  induction a as [|c a IH]; simpl.
  - now destruct b.
  - destruct (ascii_dec c c); [exact IH | congruence].
Qed.

Lemma concat_app (l1 l2 : list string) :
  String.concat "" (l1 ++ l2) = String.concat "" l1 ++ String.concat "" l2.
Proof.
  induction l1 as [|x l1 IH].
  - reflexivity.
  - cbn [app]. rewrite !concat_cons, IH. now rewrite string_app_assoc.
Qed.

(** X5. Selecting further fields only lengthens the payload at its end:
    the payload of a selection begins the payload of every selection that
    continues it. *)
Theorem payload_of_longer_selection
  (record : dict) (sel more : list string) (separator : string) :
  concatenated_data record (sel ++ more) separator
  = concatenated_data record sel separator
    ++ String.concat "" (map (fun f => segment_text record f ++ separator) more)
  /\ String.prefix (concatenated_data record sel separator)
                   (concatenated_data record (sel ++ more) separator) = true.
Proof.
  assert (E : concatenated_data record (sel ++ more) separator
              = concatenated_data record sel separator
                ++ String.concat "" (map (fun f => segment_text record f ++ separator) more)).
  { rewrite !concatenated_data_spec. unfold payload_spec.
    rewrite map_app, concat_app. now rewrite !string_app_assoc. }
  split; [exact E|]. rewrite E. apply prefix_app.
Qed.

(** X6. The length of the payload: five characters of tag, one separator,
    and for each selected field its text and one separator; a field the
    record lacks still costs a separator. *)
Theorem payload_length (record : dict) (sel : list string) (separator : string) :
  String.length (concatenated_data record sel separator)
  = (5 + String.length separator
     + list_sum (map (fun f => String.length (segment_text record f)
                               + String.length separator) sel))%nat
  /\ (5 + String.length separator * S (length sel)
      <= String.length (concatenated_data record sel separator))%nat.
Proof.
  assert (E : String.length (concatenated_data record sel separator)
              = (5 + String.length separator
                 + list_sum (map (fun f => String.length (segment_text record f)
                                           + String.length separator) sel))%nat).
  { rewrite concatenated_data_spec. unfold payload_spec.
    rewrite !string_length_app. cbn [TAG String.length].
    rewrite <- Nat.add_assoc. do 2 f_equal.
    induction sel as [|f0 sel IH]; [reflexivity|].
    rewrite map_cons, concat_cons. simpl list_sum.
    rewrite !string_length_app, IH. reflexivity. }
  split; [exact E|]. rewrite E.
  assert (H : (String.length separator * length sel
               <= list_sum (map (fun f => String.length (segment_text record f)
                                          + String.length separator) sel))%nat).
  { clear E. induction sel as [|f0 sel IH]; simpl; [lia|].
    rewrite Nat.mul_succ_r. simpl in IH. lia. }
  rewrite Nat.mul_succ_r. lia.
Qed.

(** X7. With a separator character that occurs neither in the tag nor in
    the texts of the selected fields, the payload tells the texts: two
    records with the same payload have the same text for every selected
    field. *)
Theorem payload_injective
  (sep : ascii) (r1 r2 : dict) (sel : list string)
  (Htag : contains sep TAG = false)
  (H1 : forall f, In f sel -> contains sep (segment_text r1 f) = false)
  (H2 : forall f, In f sel -> contains sep (segment_text r2 f) = false)
  (Hsame : concatenated_data r1 sel (String sep "")
           = concatenated_data r2 sel (String sep "")) :
  forall f, In f sel -> segment_text r1 f = segment_text r2 f.
Proof.
  apply (f_equal (segments sep)) in Hsame.
  rewrite !concatenated_data_spec in Hsame. unfold payload_spec in Hsame.
  rewrite !char_app, !segments_closed in Hsame by exact Htag.
  rewrite !segments_fields in Hsame by assumption.
  injection Hsame as Hmap.
  now apply map_ext_in_iff.
Qed.

(** ** Further properties of the document assembler *)

Lemma label_page_layout (sel : list string) (record : dict) (page : list flowable) :
  label_page sel record = Ok page ->
  exists matrix rows,
    qr_make (mkQRCode 1 ERROR_CORRECT_L 10 4) (concatenated_data record sel "|")
    = Ok matrix
    /\ table_data record sel = Ok rows
    /\ page
       = (match lookup "nombre" record with
          | Some v => [FParagraph (mkParagraph (str v) TitleStyle)]
          | None => []
          end
          ++ [Spacer 3; Image (mkPng matrix 10 4) 70 70; Spacer 3]
          ++ (if nonempty rows then [Table rows (25, 65)%nat] else [])
          ++ [Spacer 2;
              FParagraph (mkParagraph
                            ("<i>QR: " ++ concatenated_data record sel "|" ++ "</i>")
                            QRNote)])%list.
Proof.
  unfold label_page, title_flowables, generate_qr_concatenated, table_flowables.
  unfold mem, getitem, Paragraph.
  destruct (lookup "nombre" record) as [v|]; cbn [rbind];
    [destruct (markup_error (str v)); cbn [rbind]; [discriminate|]|];
    (destruct (qr_make _ _) as [matrix|e2]; cbn [rbind]; [|discriminate]);
    (destruct (table_data record sel) as [rows|e3]; cbn [rbind]; [|discriminate]);
    (destruct (markup_error _); cbn [rbind]; [discriminate|]);
    intros H; injection H as <-;
    exists matrix, rows; repeat split.
Qed.

(** X8. What a record that completes puts in the story: its title when
    it has a [nombre] and nothing in its place otherwise, the image of the
    symbol the encoder made of its payload, the attribute table when there
    are rows, the footnote that quotes that same payload, and the page
    break unless it is the last of the batch. *)
Theorem completed_record_layout
  (records : list dict) (sel : list string) (i : nat) (record : dict)
  (els els' : list flowable)
  (Hrun : label_body records sel i record els = (els', Ok tt)) :
  exists matrix rows,
    qr_make (mkQRCode 1 ERROR_CORRECT_L 10 4) (concatenated_data record sel "|")
    = Ok matrix
    /\ table_data record sel = Ok rows
    /\ els'
       = (els
          ++ match lookup "nombre" record with
             | Some v => [FParagraph (mkParagraph (str v) TitleStyle)]
             | None => []
             end
          ++ [Spacer 3; Image (mkPng matrix 10 4) 70 70; Spacer 3]
          ++ (if nonempty rows then [Table rows (25, 65)%nat] else [])
          ++ [Spacer 2;
              FParagraph (mkParagraph
                            ("<i>QR: " ++ concatenated_data record sel "|" ++ "</i>")
                            QRNote)]
          ++ break_after records i)%list.
Proof.
  destruct (label_body_returns records sel i record els els' Hrun)
    as (page & Hpage & ->).
  destruct (label_page_layout sel record page Hpage)
    as (matrix & rows & Hqr & Hrows & ->).
  exists matrix, rows. repeat split; [exact Hqr | exact Hrows|].
  now rewrite <- !app_assoc.
Qed.

(** X9. A record whose title is refused by the layout engine leaves
    [elements] as it found it: this is the one exception after which
    nothing of the record remains. *)
Theorem refused_title_appends_nothing
  (records : list dict) (sel : list string) (i : nat) (record : dict)
  (els : list flowable) (v : value) (e : exn)
  (Hname : lookup "nombre" record = Some v)
  (Hmarkup : markup_error (str v) = Some e) :
  label_body records sel i record els = (els, Raise e).
Proof.
  unfold label_body, when, bind, lift, mem, getitem, Paragraph.
  now rewrite Hname, Hmarkup.
Qed.

(** *** The story of any batch *)

(** What the record at index [i] adds to the story. *)
Lemma label_loop_contributions (records : list dict) (sel : list string)
  (rest : list dict) :
  forall i els,
    label_loop records sel i rest els
    = (els ++ concat (map (fun ir => fst (label_body records sel (fst ir) (snd ir) []))
                          (combine (seq i (length rest)) rest)))%list.
Proof.
  induction rest as [|r rest IH]; intros i els;
    cbn [label_loop length seq combine map concat fst snd].
  - now rewrite app_nil_r.
  - rewrite IH, (label_body_appends records sel i r els). cbn [fst].
    now rewrite <- app_assoc.
Qed.

(** A record that raises adds no page break, wherever it raises. *)
Lemma label_body_raise_no_break (records : list dict) (sel : list string)
  (i : nat) (record : dict) :
  raises records sel i record = true ->
  no_break (fst (label_body records sel i record [])).
Proof.
  unfold raises, label_body, generate_qr_concatenated.
  unfold when, bind, lift, append, ret.
  destruct (mem "nombre" record);
    [destruct (getitem record "nombre") as [v|e0]; cbn [rbind fst snd app];
      [destruct (Paragraph (str v) TitleStyle) as [t|e1]; cbn [rbind fst snd app]|]|];
    try (intros _; solve [repeat constructor]);
    (destruct (qr_make _ _) as [matrix|e2]; cbn [rbind fst snd app];
       [|intros _; repeat constructor]);
    (destruct (table_data record sel) as [rows|e3]; cbn [rbind fst snd app];
       [|intros _; repeat constructor]);
    destruct (nonempty rows); cbn [fst snd app];
    (destruct (Paragraph _ QRNote) as [note|e4]; cbn [rbind fst snd app];
       [|intros _; repeat constructor]);
    destruct (Z.of_nat i <? Z.of_nat (length records) - 1)%Z;
    cbn [fst snd is_ok negb]; discriminate.
Qed.

(** The page breaks the record at index [i] adds: one when it completes
    and is not the last of the batch. *)
Lemma contribution_breaks (records : list dict) (sel : list string)
  (i : nat) (record : dict) :
  page_breaks (fst (label_body records sel i record []))
  = if is_ok (label_page sel record) then length (break_after records i) else 0%nat.
Proof.
  destruct (label_page sel record) as [page|e] eqn:E; cbn [is_ok].
  - rewrite (label_body_ok records sel i record page E). cbn [fst].
    rewrite page_breaks_app.
    rewrite (page_breaks_none page (proj1 (label_page_no_break sel record page E))).
    unfold break_after.
    now destruct (Z.of_nat i <? Z.of_nat (length records) - 1)%Z.
  - apply page_breaks_none, label_body_raise_no_break.
    rewrite raises_label_page, E. reflexivity.
Qed.

Lemma story_breaks (records : list dict) (sel : list string) (rest : list dict) :
  forall i,
    (i + length rest = length records)%nat ->
    page_breaks
      (concat (map (fun ir => fst (label_body records sel (fst ir) (snd ir) []))
                   (combine (seq i (length rest)) rest)))
    = length (filter negb
                (removelast (map (fun r => negb (is_ok (label_page sel r))) rest))).
Proof.
  induction rest as [|r rest IH]; intros i Hi; [reflexivity|].
  cbn [length seq combine map concat fst snd].
  rewrite page_breaks_app, contribution_breaks.
  cbn [length] in Hi. rewrite IH by lia.
  destruct rest as [|r' rest].
  - cbn [length] in Hi. cbn [map removelast filter length].
    rewrite break_after_last by lia. now destruct (is_ok (label_page sel r)).
  - cbn [length] in Hi. rewrite break_after_inner by lia.
    cbn [map]. cbn [removelast]. cbn [filter].
    destruct (is_ok (label_page sel r)); cbn [negb length]; reflexivity.
Qed.

Lemma length_removelast {A} (l : list A) :
  length (removelast l) = (length l - 1)%nat.
Proof.
  induction l as [|x l IH]; [reflexivity|].
  destruct l as [|y l]; [reflexivity|].
  change (removelast (x :: y :: l)) with (x :: removelast (y :: l)).
  cbn [length] in *. lia.
Qed.

(** X10. For any batch, whatever raises in it: the story is what each
    record adds by itself, one after the other; it holds one page break
    for each record but the last that completes, hence fewer breaks than
    there are records. *)
Theorem story_of_any_batch (records : list dict) (sel : list string) :
  label_elements records sel
  = concat (map (fun ir => fst (label_body records sel (fst ir) (snd ir) []))
                (enumerate records))
  /\ page_breaks (label_elements records sel)
     = length (filter negb (removelast (failures records sel)))
  /\ (page_breaks (label_elements records sel) <= length records - 1)%nat.
Proof.
  assert (E : label_elements records sel
              = concat (map (fun ir => fst (label_body records sel (fst ir) (snd ir) []))
                            (enumerate records))).
  { rewrite label_elements_loop, label_loop_contributions. reflexivity. }
  assert (B : page_breaks (label_elements records sel)
              = length (filter negb (removelast (failures records sel)))).
  { rewrite E, failures_pages. unfold enumerate. now apply story_breaks. }
  split; [exact E|]. split; [exact B|].
  rewrite B.
  pose proof (filter_length_le negb (removelast (failures records sel))) as Hf.
  rewrite length_removelast, (failures_pages records sel) in Hf.
  rewrite (failures_pages records sel).
  now rewrite length_map in Hf.
Qed.

(** *** Fields and rows of the attribute table *)

Lemma lookup_in (d : dict) (k : string) (v : value) :
  lookup k d = Some v -> In (k, v) d.
Proof.
  induction d as [|[k' v'] d IH]; cbn [lookup In]; [discriminate|].
  destruct (String.eqb_spec k k') as [->|Hne].
  - intros H. injection H as ->. now left.
  - intros H. right. now apply IH.
Qed.

Lemma lookup_keys (d : dict) (k : string) :
  In k (keys d) <-> exists v, lookup k d = Some v.
Proof.
  clear qr_make markup_error doc_build.
  unfold keys. induction d as [|[k' v'] d IH]; cbn [map fst lookup In].
  - split; [tauto | intros [v H]; discriminate].
  - destruct (String.eqb_spec k k') as [->|Hne].
    + split; [intros _; now exists v' | now left].
    + rewrite <- IH. split; [intros [H|H]; [congruence | exact H] | now right].
Qed.

Lemma in_lookup (d : dict) (k : string) (v : value) :
  wf_dict d -> In (k, v) d -> lookup k d = Some v.
Proof.
  clear qr_make markup_error doc_build.
  unfold wf_dict, keys.
  induction d as [|[k' v'] d IH]; cbn [map fst lookup In]; [tauto|].
  intros Hnd [H|H].
  - injection H as -> ->. now rewrite String.eqb_refl.
  - apply NoDup_cons_iff in Hnd. destruct Hnd as [Hk Hnd].
    destruct (String.eqb_spec k k') as [->|Hne].
    + exfalso. apply Hk. apply (in_map fst) in H. exact H.
    + now apply IH.
Qed.

Lemma selected_keys (record : dict) (sel : list string) :
  map fst (flat_map (fun f => match lookup f record with
                              | Some v => [(f, v)]
                              | None => []
                              end) sel)
  = filter (fun f => mem f record) sel.
Proof.
  unfold mem. induction sel as [|f0 sel IH]; [reflexivity|].
  cbn [flat_map filter]. rewrite map_app, IH.
  now destruct (lookup f0 record).
Qed.

Lemma NoDup_filter_keys (p : string * value -> bool) (d : dict) :
  NoDup (map fst d) -> NoDup (map fst (filter p d)).
Proof.
  induction d as [|kv d IH]; cbn [map filter]; [constructor|].
  intros Hnd. apply NoDup_cons_iff in Hnd. destruct Hnd as [Hk Hnd].
  destruct (p kv); cbn [map]; [|now apply IH].
  constructor; [|now apply IH].
  intros H. apply Hk. apply in_map_iff in H. destruct H as [kv' [E H]].
  apply filter_In in H. apply in_map_iff. exists kv'. tauto.
Qed.

(** Every entry of the table is a field of the record with its value. *)
Lemma table_entries_sound
  (record : dict) (sel : list string) (k : string) (v : value)
  (Hwf : wf_dict record)
  (Hrow : In (k, v) (table_entries record sel)) :
  lookup k record = Some v.
Proof.
  clear qr_make markup_error doc_build.
  unfold table_entries in Hrow. apply in_app_or in Hrow.
  destruct Hrow as [H|H].
  - apply in_flat_map in H. destruct H as [f0 [_ H]].
    destruct (lookup f0 record) as [v0|] eqn:E; [|contradiction].
    destruct H as [H|[]]. injection H as <- <-. exact E.
  - apply filter_In in H. apply in_lookup; [exact Hwf | exact (proj1 H)].
Qed.

(** With a selection without repetition no field has two entries, and
    the fields with an entry are those of the record, [nombre] only when
    it is selected. *)
Lemma table_entries_cover
  (record : dict) (sel : list string)
  (Hwf : wf_dict record)
  (Hsel : NoDup sel) :
  NoDup (map fst (table_entries record sel))
  /\ forall k,
       In k (map fst (table_entries record sel))
       <-> In k (keys record) /\ (In k sel \/ k <> "nombre").
Proof.
  clear qr_make markup_error doc_build.
  unfold table_entries. rewrite map_app, selected_keys. split.
  - apply NoDup_app.
    + now apply NoDup_filter.
    + now apply NoDup_filter_keys.
    + intros k H1 H2. apply filter_In in H1. destruct H1 as [Hk _].
      apply in_map_iff in H2. destruct H2 as [[k' v'] [E H2]].
      cbn [fst] in E. subst k'. apply filter_In in H2. destruct H2 as [_ Hp].
      cbn [fst] in Hp. apply andb_true_iff in Hp. destruct Hp as [Hp _].
      apply negb_true_iff, str_in_not_In in Hp. contradiction.
  - intros k. rewrite in_app_iff, filter_In. unfold mem. split.
    + intros [[Hk Hm]|H].
      * split; [|now left]. apply lookup_keys.
        destruct (lookup k record) as [v|]; [now exists v | discriminate].
      * apply in_map_iff in H. destruct H as [[k' v'] [E H]].
        cbn [fst] in E. subst k'. apply filter_In in H. destruct H as [Hin Hp].
        cbn [fst] in Hp. apply andb_true_iff in Hp. destruct Hp as [_ Hp].
        apply negb_true_iff, String.eqb_neq in Hp.
        split; [|now right]. apply (in_map fst) in Hin. exact Hin.
    + intros [Hk Hor].
      destruct (in_dec string_dec k sel) as [Hin|Hnin].
      * left. split; [exact Hin|].
        apply lookup_keys in Hk. destruct Hk as [v ->]. reflexivity.
      * right. destruct Hor as [Hin|Hne]; [contradiction|].
        apply lookup_keys in Hk. destruct Hk as [v Hv].
        apply in_map_iff. exists (k, v). split; [reflexivity|].
        apply filter_In. split; [now apply lookup_in|].
        cbn [fst]. apply andb_true_iff. split.
        -- apply negb_true_iff, str_in_not_In. exact Hnin.
        -- apply negb_true_iff, String.eqb_neq. exact Hne.
Qed.

Lemma entry_row_inv (kv : string * value) (row : paragraph * paragraph) :
  entry_row kv = Ok row -> row = row_of kv.
Proof.
  unfold entry_row, table_row, Paragraph, row_of.
  destruct (markup_error ("<b>" ++ capitalize (fst kv) ++ "</b>:"));
    cbn [rbind]; [discriminate|].
  destruct (markup_error (str (snd kv))); cbn [rbind]; [discriminate|].
  intros H. now injection H as <-.
Qed.

Lemma map_result_rows (l : list (string * value)) :
  forall rows, map_result entry_row l = Ok rows -> rows = map row_of l.
Proof.
  induction l as [|kv l IH]; intros rows; cbn [map_result map].
  - intros H. now injection H as <-.
  - destruct (entry_row kv) as [row|e] eqn:E; cbn [rbind]; [|discriminate].
    destruct (map_result entry_row l) as [rest|e]; cbn [rbind]; [|discriminate].
    intros H. injection H as <-.
    now rewrite (entry_row_inv kv row E), (IH rest eq_refl).
Qed.

(** X11. For a record whose field names are distinct and written in
    ASCII, every row of the attribute table that is built shows a field
    of the record: its label is the capitalised field name in bold and
    its value cell is the string form of the value the record has for
    that field. *)
Theorem table_rows_sound
  (record : dict) (sel : list string) (rows : list (paragraph * paragraph))
  (label cell : paragraph)
  (Hwf : wf_dict record)
  (Hascii : Forall (fun k => is_ascii k = true) (keys record))
  (Hrows : table_data record sel = Ok rows)
  (Hrow : In (label, cell) rows) :
  exists k v,
    lookup k record = Some v
    /\ is_ascii k = true
    /\ label = mkParagraph ("<b>" ++ capitalize k ++ "</b>:") NormalStyle
    /\ cell = mkParagraph (str v) NormalStyle.
Proof.
  rewrite table_data_entries in Hrows.
  rewrite (map_result_rows _ rows Hrows) in Hrow.
  apply in_map_iff in Hrow. destruct Hrow as [[k v] [E Hin]].
  pose proof (table_entries_sound record sel k v Hwf Hin) as Hk.
  exists k, v. split; [exact Hk|]. split.
  - rewrite Forall_forall in Hascii. apply Hascii.
    apply lookup_keys. now exists v.
  - unfold row_of in E. cbn [fst snd] in E. injection E as <- <-. now split.
Qed.

(** X12. With a selection without repetition, the attribute table that
    is built has one row, and only one, for every field of the record,
    except that [nombre] has a row only when it is selected; a selected
    field that the record lacks has no row. *)
Theorem table_rows_cover
  (record : dict) (sel : list string) (rows : list (paragraph * paragraph))
  (Hwf : wf_dict record)
  (Hsel : NoDup sel)
  (Hrows : table_data record sel = Ok rows) :
  exists entries,
    rows = map row_of entries
    /\ NoDup (map fst entries)
    /\ (forall k v, In (k, v) entries -> lookup k record = Some v)
    /\ (forall k,
          In k (map fst entries)
          <-> In k (keys record) /\ (In k sel \/ k <> "nombre")).
Proof.
  exists (table_entries record sel).
  rewrite table_data_entries in Hrows.
  destruct (table_entries_cover record sel Hwf Hsel) as [Hnd Hiff].
  split; [exact (map_result_rows _ rows Hrows)|].
  split; [exact Hnd|]. split; [|exact Hiff].
  intros k v Hin. exact (table_entries_sound record sel k v Hwf Hin).
Qed.

(** ** Properties of the application script *)

Lemma validate_excel_cases (f : file) :
  (exists message df, validate_excel f = (true, message, Some df))
  \/ (exists message, validate_excel f = (false, message, None)).
Proof.
  clear qr_make markup_error doc_build.
  unfold validate_excel.
  destruct (read_excel f) as [df|e]; cbn [rbind].
  - destruct (empty df); [right; eauto|].
    destruct (nonempty _); [right; eauto|].
    destruct (convert_columns_total df) as (df' & -> & _). cbn [rbind].
    left. eexists. eexists. reflexivity.
  - right. eexists. reflexivity.
Qed.

(** What is known of a data frame that validation returns. *)
Lemma validate_excel_header (f : file) (df' : DataFrame) (message : string) :
  validate_excel f = (true, message, Some df') ->
  exists df,
    read_excel f = Ok df
    /\ columns df' = columns df
    /\ index_len df' = index_len df
    /\ index_len df <> 0%nat.
Proof.
  clear qr_make markup_error doc_build.
  unfold validate_excel.
  destruct (read_excel f) as [df|e]; cbn [rbind]; [|discriminate].
  destruct (empty df) eqn:He; [discriminate|].
  destruct (nonempty _); [discriminate|].
  destruct (convert_columns_total df) as (df0 & -> & Hc & Hn). cbn [rbind].
  intros H. injection H as _ <-. exists df.
  apply empty_false in He. tauto.
Qed.

Lemma to_dict_records_first (df : DataFrame) :
  index_len df <> 0%nat ->
  exists record records,
    to_dict_records df = record :: records /\ keys record = columns df.
Proof.
  intros Hn. unfold to_dict_records.
  destruct (index_len df) as [|n]; [congruence|].
  cbn [seq map]. eexists. eexists. split; [reflexivity|].
  unfold keys, columns. rewrite map_map. reflexivity.
Qed.

(** The upload step either leaves the session as it is or, for a first
    file that validation accepts, stores its records. *)
Lemma upload_cases (w : widgets) (s : session) :
  (fst (fst (upload w s)) = s /\ snd (upload w s) = None)
  \/ (exists f message df,
        file_uploader w = Some f
        /\ ss_file_uploaded s = false
        /\ validate_excel f = (true, message, Some df)
        /\ upload w s
           = (mkSession (Some (to_dict_records df)) true
                (ss_pdf_generated s) (ss_pdf_buffer s) (ss_selected_fields s),
              [st_success message], None)).
Proof.
  clear qr_make markup_error doc_build.
  unfold upload.
  destruct (file_uploader w) as [f|]; [|now left].
  destruct (ss_file_uploaded s) eqn:Hu; cbn [negb]; [now left|].
  destruct (validate_excel_cases f) as [(m & df & Hv)|(m & Hv)]; rewrite Hv.
  - right. exists f, m, df. now repeat split.
  - now left.
Qed.

(** The session with the selection of this run stored in it. *)
Lemma run_session (w : widgets) (s : session) :
  snd (run w s) = None
  /\ fst (fst (run w s))
     = let s1 := fst (fst (upload w s)) in
       if ss_file_uploaded s1 then
         fst (generate w
                (mkSession (ss_data s1) (ss_file_uploaded s1) (ss_pdf_generated s1)
                   (ss_pdf_buffer s1) (select_fields w s1))
                (select_fields w s1))
       else s1.
Proof.
  assert (Hc : snd (upload w s) = None).
  { destruct (upload_cases w s) as [[_ H]|(f & m & df & _ & _ & _ & ->)];
      [exact H | reflexivity]. }
  unfold run, sidebar. cbv zeta.
  destruct (upload w s) as [[s1 c1] crash]. cbn [fst snd] in *. subst crash.
  destruct (ss_file_uploaded s1); [|now split].
  destruct (generate w _ _) as [s3 c4]. now split.
Qed.

(** The session after the generation step, case by case. *)
Lemma generate_session (w : widgets) (s : session) (sel : list string) :
  fst (generate w s sel) = s
  \/ (button w = true /\ sel <> []
      /\ exists records pdf,
           ss_data s = Some records
           /\ generate_pdf records sel = Ok pdf
           /\ fst (generate w s sel)
              = mkSession (ss_data s) (ss_file_uploaded s) true (Some pdf)
                  (ss_selected_fields s)).
Proof.
  unfold generate.
  destruct (button w); cbn [andb]; [|now left].
  destruct sel as [|f0 sel]; cbn [nonempty]; [now left|].
  destruct (ss_data s) as [records|]; [|now left].
  destruct (generate_pdf records (f0 :: sel)) as [pdf|e] eqn:Hg; [|now left].
  right. repeat split; [discriminate|]. exists records, pdf. now repeat split.
Qed.

Lemma upload_keeps_session_ok (w : widgets) (s : session) :
  session_ok s -> session_ok (fst (fst (upload w s))).
Proof.
  clear qr_make markup_error doc_build.
  intros Hok.
  destruct (upload_cases w s) as [[-> _]|(f & m & df & _ & Hu & Hv & ->)];
    [exact Hok|].
  destruct Hok as (Hno & _ & _). destruct (Hno Hu) as (_ & Hg & Hb).
  destruct (validate_excel_header f df m Hv) as (df0 & _ & _ & Hn & Hn0).
  destruct (to_dict_records_first df) as (record & records & Hrec & _);
    [congruence|].
  unfold session_ok. cbn. rewrite Hg, Hb, Hrec.
  repeat split; try discriminate; try congruence. eauto.
Qed.

Lemma generate_keeps_session_ok (w : widgets) (s : session) (sel : list string) :
  session_ok s -> ss_file_uploaded s = true ->
  session_ok (fst (generate w s sel)).
Proof.
  intros Hok Hu.
  destruct (generate_session w s sel) as [->|(_ & _ & records & pdf & _ & _ & ->)];
    [exact Hok|].
  destruct Hok as (Hno & Hyes & Hpdf).
  unfold session_ok. cbn. rewrite Hu.
  repeat split; try discriminate; try congruence. intros _. now apply Hyes.
Qed.

(** X14. The session state stays coherent from run to run: before an
    accepted upload there are no records and no document; after it there
    is at least one record; and a document is held exactly when the flag
    [pdf_generated] is set. *)
Theorem run_keeps_session_ok :
  session_ok initial_session
  /\ forall (w : widgets) (s : session),
       session_ok s -> session_ok (fst (fst (run w s))).
Proof.
  split.
  - unfold session_ok, initial_session. cbn. repeat split; try discriminate.
    intros H. congruence.
  - intros w s Hok.
    rewrite (proj2 (run_session w s)). cbv zeta.
    pose proof (upload_keeps_session_ok w s Hok) as H1.
    destruct (ss_file_uploaded (fst (fst (upload w s)))) eqn:Hu; [|exact H1].
    apply generate_keeps_session_ok; [|reflexivity].
    destruct H1 as (Hno & Hyes & Hpdf). unfold session_ok. cbn.
    repeat split; try discriminate; try tauto.
Qed.

(** X15. Once a file was accepted, the records stay for good: a run with
    another file in the uploader neither validates it nor replaces the
    records. *)
Theorem upload_is_once (w : widgets) (s : session)
  (Hu : ss_file_uploaded s = true) :
  ss_data (fst (fst (run w s))) = ss_data s
  /\ ss_file_uploaded (fst (fst (run w s))) = true.
Proof.
  rewrite (proj2 (run_session w s)). cbv zeta.
  assert (H1 : fst (fst (upload w s)) = s).
  { destruct (upload_cases w s) as [[H _]|(f & m & df & _ & Hf & _)];
      [exact H | congruence]. }
  rewrite H1, Hu.
  destruct (generate_session w
              (mkSession (ss_data s) true (ss_pdf_generated s) (ss_pdf_buffer s)
                 (select_fields w s)) (select_fields w s))
    as [->|(_ & _ & records & pdf & _ & _ & ->)]; now split.
Qed.

(** X16. A file that validation refuses changes nothing in the session;
    the run shows the validator's message as an error and then the
    instructions with the example table. *)
Theorem refused_upload_changes_nothing
  (w : widgets) (s : session) (f : file) (message : string)
  (Hfile : file_uploader w = Some f)
  (Hu : ss_file_uploaded s = false)
  (Hv : validate_excel f = (false, message, None)) :
  run w s
  = (s,
     ([st_title "Generador de Etiquetas QR"; st_header "Configuración";
       st_error message] ++ main_area s)%list,
     None)
  /\ In (st_dataframe example_df) (main_area s).
Proof.
  unfold run, sidebar, upload. rewrite Hfile, Hu. cbn [negb]. rewrite Hv, Hu.
  split; [reflexivity|]. unfold main_area. rewrite Hu. cbn. tauto.
Qed.

(** X17. After a sheet is accepted, the selection stored is the ticked
    columns in the order of the sheet's header, whatever the order of the
    ticks; with distinct column names no field is selected twice. *)
Theorem selection_follows_header
  (w : widgets) (s : session) (f : file) (df df' : DataFrame) (message : string)
  (Hfile : file_uploader w = Some f)
  (Hu : ss_file_uploaded s = false)
  (Hread : read_excel f = Ok df)
  (Hnames : NoDup (columns df))
  (Hv : validate_excel f = (true, message, Some df')) :
  ss_selected_fields (fst (fst (run w s)))
  = filter (fun c => checkbox w c (str_in c default_fields)) (columns df)
  /\ NoDup (ss_selected_fields (fst (fst (run w s)))).
Proof.
  assert (E : ss_selected_fields (fst (fst (run w s)))
              = filter (fun c => checkbox w c (str_in c default_fields)) (columns df)).
  { rewrite (proj2 (run_session w s)). cbv zeta.
    unfold upload. rewrite Hfile, Hu. cbn [negb]. rewrite Hv.
    cbn [fst ss_file_uploaded ss_data ss_pdf_generated ss_pdf_buffer].
    destruct (validate_excel_header f df' message Hv) as (df0 & Hr0 & Hc & Hn & Hn0).
    assert (df0 = df) by congruence. subst df0.
    destruct (to_dict_records_first df') as (record & records & Hrec & Hk);
      [congruence|].
    assert (Hsel : select_fields w
                     (mkSession (Some (to_dict_records df')) true
                        (ss_pdf_generated s) (ss_pdf_buffer s) (ss_selected_fields s))
                   = filter (fun c => checkbox w c (str_in c default_fields))
                            (columns df)).
    { unfold select_fields, available_fields. cbn [ss_data].
      now rewrite Hrec, Hk, Hc. }
    rewrite Hsel.
    match goal with
    | |- ss_selected_fields (fst (generate w ?s2 ?sel)) = _ =>
        destruct (generate_session w s2 sel)
          as [->|(_ & _ & recs & pdf & _ & _ & ->)]; reflexivity
    end. }
  split; [exact E|]. rewrite E. now apply NoDup_filter.
Qed.

(** X18. A run changes the document held in the session only by
    generating one with success, which takes the button, a selection
    that is not empty and a build that does not raise; in every other run
    the flag and the buffer stay as they were. *)
Theorem document_changes_on_success_only (w : widgets) (s : session) :
  let s' := fst (fst (run w s)) in
  (ss_pdf_generated s' = ss_pdf_generated s /\ ss_pdf_buffer s' = ss_pdf_buffer s)
  \/ (button w = true
      /\ ss_selected_fields s' <> []
      /\ exists records pdf,
           ss_data s' = Some records
           /\ generate_pdf records (ss_selected_fields s') = Ok pdf
           /\ ss_pdf_generated s' = true
           /\ ss_pdf_buffer s' = Some pdf).
Proof.
  cbv zeta. rewrite (proj2 (run_session w s)). cbv zeta.
  assert (H1 : ss_pdf_generated (fst (fst (upload w s))) = ss_pdf_generated s
               /\ ss_pdf_buffer (fst (fst (upload w s))) = ss_pdf_buffer s).
  { destruct (upload_cases w s) as [[-> _]|(f & m & df & _ & _ & _ & ->)];
      now split. }
  destruct H1 as [Hg Hb].
  set (s1 := fst (fst (upload w s))) in *.
  destruct (ss_file_uploaded s1); [|left; now split].
  match goal with
  | |- context [generate w ?s2 ?sel] =>
      destruct (generate_session w s2 sel)
        as [->|(Hbt & Hsel & recs & pdf & Hd & Hpdf & ->)]
  end.
  - left. now split.
  - right. cbn in *. split; [exact Hbt|]. split; [exact Hsel|].
    exists recs, pdf. now repeat split.
Qed.

(** X19. When a new generation raises, the run shows the error and the
    document generated before stays in the session and is the one offered
    for download. *)
Theorem failed_generation_keeps_document
  (w : widgets) (s : session) (records : list dict) (old : artifact) (e : exn)
  (Hu : ss_file_uploaded s = true)
  (Hdata : ss_data s = Some records)
  (Hgen : ss_pdf_generated s = true)
  (Hold : ss_pdf_buffer s = Some old)
  (Hbutton : button w = true)
  (Hsel : select_fields w s <> [])
  (Hraise : generate_pdf records (select_fields w s) = Raise e) :
  let '(s', calls, _) := run w s in
  ss_pdf_buffer s' = Some old
  /\ ss_pdf_generated s' = true
  /\ In (st_error ("Error al generar el PDF: " ++ str e)) calls
  /\ In (st_download_button "Descargar PDF" old
           "etiquetas_qr_a6.pdf" "application/pdf") calls.
Proof.
  unfold run, sidebar.
  assert (H1 : upload w s = (s, [], None)).
  { unfold upload. rewrite Hu. now destruct (file_uploader w). }
  rewrite H1, Hu. cbv zeta.
  unfold generate. cbn [ss_data]. rewrite Hbutton, Hdata, Hraise.
  destruct (select_fields w s) as [|f0 sel] eqn:Es; [congruence|].
  cbn [andb nonempty].
  unfold main_area. cbn [ss_file_uploaded ss_pdf_generated ss_pdf_buffer ss_data].
  rewrite Hgen, Hold.
  split; [reflexivity|]. split; [reflexivity|]. split.
  - cbn. tauto.
  - apply in_cons, in_or_app. right. apply in_or_app. right. cbn. tauto.
Qed.

Lemma lookup_named (sel : list string) (f : string) :
  In f sel -> lookup f (map (fun g => (g, VStr g)) sel) = Some (VStr f).
Proof.
  clear qr_make markup_error doc_build.
  induction sel as [|g sel IH]; cbn [In map lookup]; [tauto|].
  destruct (String.eqb_spec f g) as [->|Hne]; [reflexivity|].
  intros [H|H]; [congruence | now apply IH].
Qed.

Lemma join_closed (c : ascii) (sel : list string) :
  sel <> [] ->
  join (String c "") sel ++ String c ""
  = String.concat "" (map (fun f => f ++ String c "") sel).
Proof.
  unfold join. induction sel as [|f0 sel IH]; [congruence|]. intros _.
  rewrite map_cons, concat_cons.
  destruct sel as [|g sel]; [cbn; now rewrite string_app_nil_r|].
  change (String.concat (String c "") (f0 :: g :: sel))
    with (f0 ++ String c "" ++ String.concat (String c "") (g :: sel)).
  rewrite !string_app_assoc. do 2 f_equal. now apply IH.
Qed.

(** X20. The structure shown in the sidebar is the payload with the
    field names in the place of the values, less the tag [AR-QR] that
    every payload begins with. *)
Theorem shown_structure_lacks_tag (sel : list string) (Hsel : sel <> []) :
  concatenated_data (map (fun f => (f, VStr f)) sel) sel "|"
  = TAG ++ example_structure sel.
Proof.
  clear qr_make markup_error doc_build.
  rewrite concatenated_data_spec. unfold payload_spec, example_structure.
  f_equal. rewrite char_app. rewrite <- (char_app PIPE). f_equal.
  change "|" with (String PIPE "").
  rewrite join_closed by exact Hsel.
  f_equal. apply map_ext_in. intros f0 Hf. f_equal.
  unfold segment_text. now rewrite lookup_named.
Qed.

Lemma to_dict_records_keys (df : DataFrame) :
  Forall (fun record => keys record = columns df) (to_dict_records df).
Proof.
  unfold to_dict_records. apply Forall_map, Forall_forall. intros i _.
  unfold keys, columns. rewrite map_map. reflexivity.
Qed.

(** X21. The records stored for an accepted sheet are its rows, one
    record per row in row order, each with the header as its keys in
    header order; the value a record has for a column is the cell at the
    row's place in what [astype(str)] made of that column. *)
Theorem accepted_upload_stores_rows
  (w : widgets) (s : session) (f : file) (df df' : DataFrame) (message : string)
  (Hfile : file_uploader w = Some f)
  (Hu : ss_file_uploaded s = false)
  (Hread : read_excel f = Ok df)
  (Hwf : wf_df df)
  (Hv : validate_excel f = (true, message, Some df')) :
  exists records,
    ss_data (fst (fst (run w s))) = Some records
    /\ records
       = map (fun i => map (fun cs => (fst cs, nth i (astype_str (snd cs)) VNone))
                           (data df))
             (seq 0 (index_len df))
    /\ length records = index_len df
    /\ Forall (fun record => keys record = columns df) records.
Proof.
  destruct (validate_excel_accepted f df df' message Hread Hwf Hv) as (-> & _).
  exists (to_dict_records (mkDataFrame (index_len df) (map coerce_column (data df)))).
  split.
  - rewrite (proj2 (run_session w s)). cbv zeta.
    unfold upload. rewrite Hfile, Hu. cbn [negb]. rewrite Hv.
    cbn [fst ss_file_uploaded ss_data ss_pdf_generated ss_pdf_buffer].
    match goal with
    | |- ss_data (fst (generate w ?s2 ?sel)) = _ =>
        destruct (generate_session w s2 sel)
          as [->|(_ & _ & recs & pdf & _ & _ & ->)]; reflexivity
    end.
  - split; [|split].
    + unfold to_dict_records. cbn [data index_len].
      apply map_ext. intros i. rewrite map_map. reflexivity.
    + unfold to_dict_records. cbn [index_len]. now rewrite length_map, length_seq.
    + pose proof (to_dict_records_keys
                    (mkDataFrame (index_len df) (map coerce_column (data df)))) as H.
      unfold columns in *. cbn [data] in H. rewrite map_map in H. exact H.
Qed.

End Pipeline.

(** C2 as stated fails on a value that holds the separator: the record
    [{A: "x|y"}] with selection [[A]] gives ["AR-QR|x|y|"], three segments
    for a selection of one field. *)
Lemma payload_segments_separator_in_value :
  concatenated_data [("A", VStr "x|y")] ["A"] "|" = "AR-QR|x|y|"
  /\ length (segments PIPE (concatenated_data [("A", VStr "x|y")] ["A"] "|")) = 3%nat
  /\ length (segments PIPE (concatenated_data [("A", VStr "x|y")] ["A"] "|"))
     <> S (length ["A"]).
Proof.
  repeat split; try reflexivity. simpl. discriminate.
Qed.

(** ** The statements on the example data *)

(** A selection with a field the example record lacks. *)
Lemma payload_segments_witness :
  segments PIPE (concatenated_data example_record ["ID"; "COLOR"; "PESO Kg"] "|")
  = ["AR-QR"; "14X00.004"; ""; "50"].
Proof.
  refine (proj1 (payload_segments PIPE example_record ["ID"; "COLOR"; "PESO Kg"] _ _)).
  - reflexivity.
  - intros f [<- | [<- | [<- | []]]]; reflexivity.
Defined.

(** Two records that differ outside the selection only. *)
Lemma payload_depends_on_selection_witness :
  concatenated_data example_record example_selection "|"
  = concatenated_data relabelled_record example_selection "|".
Proof.
  refine (proj1 (payload_depends_on_selection standin_make
                   example_record relabelled_record example_selection "|" 10 _)).
  intros f [<- | [<- | [<- | []]]]; reflexivity.
Defined.

(** A sheet with headers and no rows, and a sheet without [WOCO]. *)
Lemma validate_excel_rejects_witness :
  validate_excel DataFrame standin_read standin_astype headers_only_frame
  = (false, "El archivo Excel no contiene datos", None)
  /\ validate_excel DataFrame standin_read standin_astype unmarked_frame
     = (false, "Faltan las siguientes columnas: WOCO", None).
Proof.
  split.
  - refine (validate_excel_rejects DataFrame standin_read standin_astype
              headers_only_frame headers_only_frame _ _).
    + reflexivity.
    + left. reflexivity.
  - refine (validate_excel_rejects DataFrame standin_read standin_astype
              unmarked_frame unmarked_frame _ _).
    + reflexivity.
    + right. intros [H | []]. discriminate H.
Defined.

(** A sheet of two rows whose second row has no [LOTE]: the cell is
    still the float [nan] in the data frame returned. *)
Lemma validate_excel_converts_columns_witness :
  validate_excel DataFrame standin_read standin_astype gappy_frame
  = (true, "Archivo validado correctamente",
     Some (mkDataFrame 2
             [("WOCO", [VStr "1001"; VStr "1002"]);
              ("LOTE", [VStr "241105-9246"; VOpaque "nan"])])).
Proof.
  refine (proj1 (validate_excel_converts_columns DataFrame standin_read
                   standin_astype gappy_frame gappy_frame _ _ _ _)).
  - reflexivity.
  - split.
    + repeat constructor; simpl; intuition discriminate.
    + repeat constructor.
  - reflexivity.
  - left. reflexivity.
Defined.

(** A build that fails on a batch of two. *)
Lemma build_failure_is_fatal_witness :
  generate_pdf standin_make standin_markup (list flowable) failing_build
    [example_record; second_record] example_selection
  = Raise (Exn "LayoutError" "Flowable too large on page 1").
Proof.
  refine (proj1 (build_failure_is_fatal standin_make standin_markup
                   (list flowable) failing_build
                   [example_record; second_record] example_selection _ _)).
  reflexivity.
Defined.



(** The ordering example, and a record with its name only: its page has
    the title, the code and the footnote and no table. *)
Lemma attribute_table_order_witness :
  table_data standin_markup abcd_record ["C"; "A"]
  = Ok (map row_of [("C", VStr "3"); ("A", VStr "1"); ("B", VStr "2"); ("D", VStr "4")])
  /\ exists page,
       label_body standin_make standin_markup [name_only_record] ["ID"] 0
         name_only_record []
       = (page, Ok tt)
       /\ page <> []
       /\ filter is_table page = [].
Proof.
  destruct (attribute_table_order standin_make standin_markup)
    as (_ & Hrows & _ & Hpage).
  split.
  - apply (Hrows abcd_record ["C"; "A"]). reflexivity.
  - destruct (Hpage [name_only_record] ["ID"] 0%nat name_only_record []
                (fst (label_body standin_make standin_markup [name_only_record]
                        ["ID"] 0 name_only_record []))
                [] eq_refl eq_refl)
      as (page & Hels & Hne & Htab).
    exists page. cbn [app] in Hels. rewrite app_nil_r in Hels.
    split; [rewrite <- Hels; reflexivity | split; [exact Hne | exact Htab]].
Defined.

(** A batch of two whose last record cannot be encoded: two pages. *)
Lemma failed_record_leaves_elements_witness :
  failures standin_make standin_markup [example_record; oversized_record] ["ID"]
  = [false; true]
  /\ length (split_pages (label_elements standin_make standin_markup
                            [example_record; oversized_record] ["ID"])) = 2%nat.
Proof.
  assert (Hone : failures standin_make standin_markup
                   ([example_record] ++ oversized_record :: [])%list ["ID"]
                 = (repeat false (length [example_record])
                      ++ true :: repeat false (length (@nil dict)))%list)
    by (vm_compute; reflexivity).
  split; [exact Hone|].
  destruct (failed_record_leaves_elements standin_make standin_markup
              (list flowable) standin_build
              [example_record] [] oversized_record ["ID"]
              [FParagraph (mkParagraph "Tambor" TitleStyle)] Hone eq_refl)
    as (pb & pa & tail & _ & _ & _ & _ & _ & Hlast).
  exact (Hlast eq_refl).
Defined.

(** C3 on a batch of two.  The first record cannot be encoded; its title
    and spacer stay in the story and head the only page, which is the
    label of the second record. *)
Lemma failed_record_title_on_next_label :
  split_pages (label_elements standin_make standin_markup
                 [oversized_record; name_only_record] ["ID"])
  = [[FParagraph (mkParagraph "Tambor" TitleStyle); Spacer 3;
      FParagraph (mkParagraph "Caja" TitleStyle); Spacer 3;
      Image (mkPng (map bits_of_ascii (list_ascii_of_string "AR-QR||")) 10 4) 70 70;
      Spacer 3; Spacer 2;
      FParagraph (mkParagraph "<i>QR: AR-QR||</i>" QRNote)]].
Proof.
  vm_compute. reflexivity.
Qed.

(** ** The further properties on the example data *)

Local Notation "'run_app'" :=
  (run standin_make standin_markup (list flowable) standin_build
       DataFrame standin_read standin_astype).

Local Notation "'defaults_ticked'" :=
  (fun (_ : string) (default : bool) => default).

Lemma gappy_frame_wf : wf_df gappy_frame.
Proof.
  split.
  - repeat constructor; simpl; intuition discriminate.
  - repeat constructor.
Qed.

Lemma example_frame_wf : wf_df example_frame.
Proof.
  split.
  - repeat constructor; simpl; intuition discriminate.
  - repeat constructor.
Qed.

(** A sheet with one row and the column [WOCO] alone is accepted. *)
Lemma validate_excel_accepts_iff_witness :
  fst (fst (validate_excel DataFrame standin_read standin_astype
              (mkDataFrame 1 [("WOCO", [VInt 7])]))) = true.
Proof.
  apply (proj2 (validate_excel_accepts_iff DataFrame standin_read standin_astype
                  (mkDataFrame 1 [("WOCO", [VInt 7])])
                  (mkDataFrame 1 [("WOCO", [VInt 7])]) eq_refl)).
  split; [discriminate | left; reflexivity].
Defined.

(** Two records with the same payload. *)
Lemma payload_injective_witness :
  segment_text example_record "LOTE" = segment_text relabelled_record "LOTE".
Proof.
  refine (payload_injective PIPE example_record relabelled_record
            example_selection _ _ _ _ "LOTE" _).
  - reflexivity.
  - intros f [<- | [<- | [<- | []]]]; reflexivity.
  - intros f [<- | [<- | [<- | []]]]; reflexivity.
  - reflexivity.
  - right. left. reflexivity.
Defined.

(** The label of a record with its name only. *)
Lemma completed_record_layout_witness :
  fst (label_body standin_make standin_markup [name_only_record] ["ID"] 0
         name_only_record [])
  = [FParagraph (mkParagraph "Caja" TitleStyle); Spacer 3;
     Image (mkPng (map bits_of_ascii (list_ascii_of_string "AR-QR||")) 10 4) 70 70;
     Spacer 3; Spacer 2;
     FParagraph (mkParagraph "<i>QR: AR-QR||</i>" QRNote)].
Proof.
  destruct (completed_record_layout standin_make standin_markup
              [name_only_record] ["ID"] 0 name_only_record []
              (fst (label_body standin_make standin_markup [name_only_record]
                      ["ID"] 0 name_only_record []))
              eq_refl)
    as (matrix & rows & Hqr & Hrows & E).
  injection Hqr as <-. injection Hrows as <-. exact E.
Defined.

(** A name with a tag left open. *)
Lemma refused_title_appends_nothing_witness :
  label_body standin_make unclosed_markup [odd_name_record] ["ID"] 0
    odd_name_record [Spacer 1]
  = ([Spacer 1], Raise (Exn "ValueError" "Parse error: Caja <b")).
Proof.
  refine (refused_title_appends_nothing standin_make unclosed_markup
            [odd_name_record] ["ID"] 0 odd_name_record [Spacer 1]
            (VStr "Caja <b") (Exn "ValueError" "Parse error: Caja <b") _ _);
    reflexivity.
Defined.

Lemma abcd_record_wf : wf_dict abcd_record.
Proof.
  unfold wf_dict. repeat constructor; simpl; intuition discriminate.
Qed.

(** The row of [B] in the ordering example. *)
Lemma table_rows_sound_witness :
  exists k v,
    lookup k abcd_record = Some v
    /\ is_ascii k = true
    /\ mkParagraph "<b>B</b>:" NormalStyle
       = mkParagraph ("<b>" ++ capitalize k ++ "</b>:") NormalStyle
    /\ mkParagraph "2" NormalStyle = mkParagraph (str v) NormalStyle.
Proof.
  refine (table_rows_sound standin_markup abcd_record ["C"; "A"]
            (map row_of [("C", VStr "3"); ("A", VStr "1");
                         ("B", VStr "2"); ("D", VStr "4")])
            (mkParagraph "<b>B</b>:" NormalStyle) (mkParagraph "2" NormalStyle)
            _ _ _ _).
  - exact abcd_record_wf.
  - repeat constructor.
  - reflexivity.
  - simpl. tauto.
Defined.

(** The rows of the ordering example. *)
Lemma table_rows_cover_witness :
  exists entries,
    map row_of [("C", VStr "3"); ("A", VStr "1"); ("B", VStr "2"); ("D", VStr "4")]
    = map row_of entries
    /\ NoDup (map fst entries)
    /\ (forall k v, In (k, v) entries -> lookup k abcd_record = Some v)
    /\ (forall k,
          In k (map fst entries)
          <-> In k (keys abcd_record) /\ (In k ["C"; "A"] \/ k <> "nombre")).
Proof.
  refine (table_rows_cover standin_markup abcd_record ["C"; "A"]
            (map row_of [("C", VStr "3"); ("A", VStr "1");
                         ("B", VStr "2"); ("D", VStr "4")]) _ _ _).
  - exact abcd_record_wf.
  - repeat constructor; simpl; intuition discriminate.
  - reflexivity.
Defined.

(** A second file offered after a first was accepted. *)
Lemma upload_is_once_witness :
  ss_data (list flowable)
    (fst (fst (run_app
                 (mkWidgets DataFrame (Some example_frame) defaults_ticked false)
                 (mkSession (list flowable) (Some [example_record]) true false None []))))
  = Some [example_record].
Proof.
  refine (proj1 (upload_is_once standin_make standin_markup (list flowable)
                   standin_build DataFrame standin_read standin_astype
                   (mkWidgets DataFrame (Some example_frame) defaults_ticked false)
                   (mkSession (list flowable) (Some [example_record]) true false None [])
                   _)).
  reflexivity.
Defined.

(** A sheet with headers and no rows offered to a fresh session. *)
Lemma refused_upload_changes_nothing_witness :
  fst (fst (run_app
              (mkWidgets DataFrame (Some headers_only_frame) defaults_ticked true)
              (initial_session (list flowable))))
  = initial_session (list flowable).
Proof.
  rewrite (proj1 (refused_upload_changes_nothing standin_make standin_markup
                    (list flowable) standin_build DataFrame standin_read standin_astype
                    (mkWidgets DataFrame (Some headers_only_frame) defaults_ticked true)
                    (initial_session (list flowable))
                    headers_only_frame "El archivo Excel no contiene datos"
                    eq_refl eq_refl eq_refl)).
  reflexivity.
Defined.

(** The example sheet with the default ticks: [ID] is its only default
    field. *)
Lemma selection_follows_header_witness :
  ss_selected_fields (list flowable)
    (fst (fst (run_app
                 (mkWidgets DataFrame (Some example_frame) defaults_ticked false)
                 (initial_session (list flowable)))))
  = ["ID"].
Proof.
  refine (proj1 (selection_follows_header standin_make standin_markup
                   (list flowable) standin_build DataFrame standin_read standin_astype
                   (mkWidgets DataFrame (Some example_frame) defaults_ticked false)
                   (initial_session (list flowable))
                   example_frame example_frame
                   (mkDataFrame 2 (map (coerce_column standin_astype) (data example_frame)))
                   "Archivo validado correctamente" _ _ _ _ _)).
  - reflexivity.
  - reflexivity.
  - reflexivity.
  - exact (proj1 example_frame_wf).
  - reflexivity.
Defined.

(** A session that holds a document, and a new generation that the
    layout engine fails. *)
Lemma failed_generation_keeps_document_witness :
  ss_pdf_buffer (list flowable)
    (fst (fst (run standin_make standin_markup (list flowable) failing_build
                 DataFrame standin_read standin_astype
                 (mkWidgets DataFrame None defaults_ticked true)
                 (mkSession (list flowable) (Some [example_record]) true true
                    (Some [Spacer 1]) []))))
  = Some [Spacer 1].
Proof.
  pose proof (failed_generation_keeps_document standin_make standin_markup
                (list flowable) failing_build DataFrame standin_read standin_astype
                (mkWidgets DataFrame None defaults_ticked true)
                (mkSession (list flowable) (Some [example_record]) true true
                   (Some [Spacer 1]) [])
                [example_record] [Spacer 1]
                (Exn "LayoutError" "Flowable too large on page 1")
                eq_refl eq_refl eq_refl eq_refl eq_refl) as H.
  destruct (run standin_make standin_markup (list flowable) failing_build
              DataFrame standin_read standin_astype _ _) as [[s' calls] crash].
  apply H; [discriminate | reflexivity].
Defined.

(** The structure shown for the example selection. *)
Lemma shown_structure_lacks_tag_witness :
  concatenated_data (map (fun f => (f, VStr f)) example_selection)
    example_selection "|"
  = "AR-QR|ID|LOTE|PESO Kg|".
Proof.
  refine (shown_structure_lacks_tag example_selection _). discriminate.
Defined.

(** The records stored for the example sheet. *)
Lemma accepted_upload_stores_rows_witness :
  ss_data (list flowable)
    (fst (fst (run_app
                 (mkWidgets DataFrame (Some gappy_frame) defaults_ticked false)
                 (initial_session (list flowable)))))
  = Some [[("WOCO", VStr "1001"); ("LOTE", VStr "241105-9246")];
          [("WOCO", VStr "1002"); ("LOTE", VOpaque "nan")]].
Proof.
  destruct (accepted_upload_stores_rows standin_make standin_markup
              (list flowable) standin_build DataFrame standin_read standin_astype
              (mkWidgets DataFrame (Some gappy_frame) defaults_ticked false)
              (initial_session (list flowable))
              gappy_frame gappy_frame
              (mkDataFrame 2 (map (coerce_column standin_astype) (data gappy_frame)))
              "Archivo validado correctamente"
              eq_refl eq_refl eq_refl gappy_frame_wf eq_refl)
    as (records & Hd & -> & _).
  exact Hd.
Defined.

(** ** The builder and the capacity of the symbology *)

Section Capacity.

(** An encoder and the capacity it goes by: [fits settings payload] says
    whether a symbol made with [settings] can hold [payload]; the encoder
    raises when it cannot and gives the matrix when it can. *)
Variable qr_make : QRCode -> string -> result (list (list bool)).
Variable fits : QRCode -> string -> bool.

Hypothesis qr_make_refuses :
  forall settings payload,
    fits settings payload = false -> exists e, qr_make settings payload = Raise e.

Hypothesis qr_make_encodes :
  forall settings payload,
    fits settings payload = true ->
    exists matrix, qr_make settings payload = Ok matrix.

(** C5. The builder asks for a symbol at the low error-correction level
    with automatic fit from version 1.  When the payload exceeds the
    capacity at these settings, the builder raises the encoder's
    exception and returns no image; nothing else is tried: an encoder
    that answers the same at these settings gives the same failure, what
    it would do at any other settings does not matter.  When the payload
    is within the capacity, the builder returns the image and the
    payload. *)
Theorem oversized_payload_is_refused
  (record : dict) (sel : list string) (separator : string) (box : nat) :
  let settings := mkQRCode 1 ERROR_CORRECT_L box 4 in
  let payload := concatenated_data record sel separator in
  (fits settings payload = false ->
   exists e,
     qr_make settings payload = Raise e
     /\ generate_qr_concatenated qr_make record sel separator box = Raise e
     /\ forall qr_make' : QRCode -> string -> result (list (list bool)),
          qr_make' settings payload = qr_make settings payload ->
          generate_qr_concatenated qr_make' record sel separator box = Raise e)
  /\ (fits settings payload = true ->
      exists matrix,
        generate_qr_concatenated qr_make record sel separator box
        = Ok (Image (mkPng matrix box 4) 70 70, payload)).
Proof.
  cbv zeta. split.
  - intros Hover.
    destruct (qr_make_refuses _ _ Hover) as [e He].
    exists e. split; [exact He|]. split.
    + unfold generate_qr_concatenated. now rewrite He.
    + intros qr_make' Hsame. unfold generate_qr_concatenated.
      now rewrite Hsame, He.
  - intros Hfits.
    destruct (qr_make_encodes _ _ Hfits) as [matrix Hm].
    exists matrix. unfold generate_qr_concatenated. now rewrite Hm.
Qed.

End Capacity.

Lemma standin_make_refuses (settings : QRCode) (payload : string) :
  standin_fits settings payload = false ->
  exists e, standin_make settings payload = Raise e.
Proof.
  intros H. unfold standin_make. rewrite H. now exists InvalidVersion.
Qed.

Lemma standin_make_encodes (settings : QRCode) (payload : string) :
  standin_fits settings payload = true ->
  exists matrix, standin_make settings payload = Ok matrix.
Proof.
  intros H. unfold standin_make. rewrite H. eexists. reflexivity.
Qed.

(** An identifier of 8000 digits needs 26786 bits, more than the 23648 of
    the largest symbol at the low level; the example record needs 318. *)
Lemma oversized_payload_is_refused_witness :
  needed_bits (concatenated_data oversized_record ["ID"] "|") = 26786%Z
  /\ generate_qr_concatenated standin_make oversized_record ["ID"] "|" 10
     = Raise InvalidVersion
  /\ needed_bits (concatenated_data example_record example_selection "|") = 318%Z
  /\ exists matrix,
       generate_qr_concatenated standin_make example_record example_selection "|" 10
       = Ok (Image (mkPng matrix 10 4) 70 70, "AR-QR|14X00.004|241105-9246|50|").
Proof.
  destruct (oversized_payload_is_refused standin_make standin_fits
              standin_make_refuses standin_make_encodes
              oversized_record ["ID"] "|" 10) as [Hover _].
  destruct (oversized_payload_is_refused standin_make standin_fits
              standin_make_refuses standin_make_encodes
              example_record example_selection "|" 10) as [_ Hfits].
  split; [vm_compute; reflexivity|]. split.
  - destruct Hover as (e & He & Hgen & _); [vm_compute; reflexivity|].
    rewrite Hgen. f_equal.
    assert (E : standin_make (mkQRCode 1 ERROR_CORRECT_L 10 4)
                  (concatenated_data oversized_record ["ID"] "|")
                = Raise InvalidVersion) by (vm_compute; reflexivity).
    rewrite E in He. now injection He.
  - split; [vm_compute; reflexivity|].
    apply Hfits. vm_compute. reflexivity.
Defined.
